(** * PookieMoni: configuration, budgets, periods and ledger merge

    Shallow embedding of [src/config_utils.py], the budget overview and
    the day counts of the spending rate analysis of [src/app.py], the yearly estimate, next due
    dates and due status of [src/pages/4_🔄_Recurrings.py], the trend
    arrows of [src/pages/1_📈_Dashboard.py], and the worksheet resolution
    and merge of [src/user_utils.py]. *)

From Stdlib Require Import ZArith Lia List Bool Ascii String QArith Qabs Lqa.
From Stdlib Require Import Sorted Permutation.
Import ListNotations.

Local Open Scope Z_scope.

(* ------------------------------------------------------------------ *)
(** ** Python dicts as ordered association lists *)

Module PyDict.

(** A Python [dict]: keys in insertion order. *)
Definition dict (V : Type) := list (string * V).

(** [d.get(k)] *)
Fixpoint lookup {V} (k : string) (d : dict V) : option V :=
  match d with
  | [] => None
  | (k', v) :: t => if String.eqb k k' then Some v else lookup k t
  end.

Definition mem {V} (k : string) (d : dict V) : bool :=
  match lookup k d with Some _ => true | None => false end.

(** [d[k] = v]: an existing key keeps its position, a new key goes last. *)
Fixpoint set {V} (k : string) (v : V) (d : dict V) : dict V :=
  match d with
  | [] => [(k, v)]
  | (k', v') :: t => if String.eqb k k' then (k', v) :: t else (k', v') :: set k v t
  end.

(** [del d[k]] (keys of a dict are unique). *)
Definition del {V} (k : string) (d : dict V) : dict V :=
  filter (fun kv => negb (String.eqb k (fst kv))) d.

(** [list(d.keys())] *)
Definition keys {V} (d : dict V) : list string := map fst d.

(** [list(d.values())] *)
Definition values {V} (d : dict V) : list V := map snd d.

End PyDict.

(* ------------------------------------------------------------------ *)
(** ** Python string helpers *)

(** [str.lower] lowers by the Unicode case tables (É to é, İ to i
    followed by a combining dot, a final Σ to ς, ...). The methods that
    call it take it as a parameter [lower : string -> string], and each
    theorem states the properties of [str.lower] it relies on. *)

(** [str.lower] on strings whose characters are all ASCII: A-Z to a-z,
    other bytes left unchanged. It agrees with [str.lower] only on such
    strings (and on the non-ASCII characters that are their own lower
    case), and serves for the concrete examples below. *)
Definition ascii_lower (c : ascii) : ascii :=
  let n := nat_of_ascii c in
  if andb (Nat.leb 65 n) (Nat.leb n 90) then ascii_of_nat (n + 32) else c.

Fixpoint ascii_str_lower (s : string) : string :=
  match s with
  | EmptyString => EmptyString
  | String c t => String (ascii_lower c) (ascii_str_lower t)
  end.

(** [needle in hay] for two strings. *)
Fixpoint py_contains (needle hay : string) : bool :=
  if String.prefix needle hay then true
  else match hay with
       | EmptyString => false
       | String _ t => py_contains needle t
       end.

(** [x in lst] for a list of strings. *)
Definition py_in (x : string) (l : list string) : bool :=
  existsb (String.eqb x) l.

(** [lst.sort()] on strings: code-point order. *)
Fixpoint insert_sorted (x : string) (l : list string) : list string :=
  match l with
  | [] => [x]
  | y :: t => if String.leb x y then x :: y :: t else y :: insert_sorted x t
  end.

Fixpoint py_sort (l : list string) : list string :=
  match l with
  | [] => []
  | x :: t => insert_sorted x (py_sort t)
  end.

(** [lst.remove(x)]: drops the first occurrence. *)
Fixpoint remove_first (x : string) (l : list string) : list string :=
  match l with
  | [] => []
  | y :: t => if String.eqb x y then t else y :: remove_first x t
  end.

(* ------------------------------------------------------------------ *)
(** ** ConfigManager *)

Module Config.
Import PyDict.

(** One entry of [config["categories"]], as written by [add_category]
    and by the default configuration. *)
Record CategoryRule := mkRule { stores : list string; keywords : list string }.

(** [config["settings"]]; an absent key is [None] and the readers apply
    their defaults. *)
Record Settings := mkSettings {
  default_category : option string;
  auto_categorize : option bool }.

Record Config := mkConfig {
  settings : Settings;
  categories : dict CategoryRule }.

Definition with_categories (c : Config) (cats : dict CategoryRule) : Config :=
  mkConfig (settings c) cats.

(** [_get_default_config] *)
Definition default_config : Config :=
  mkConfig (mkSettings (Some "Other"%string) (Some true))
    [("Food"%string, mkRule ["Supermarket"; "Restaurant"; "Café"]%string
                            ["food"; "restaurant"; "cafe"]%string);
     ("Transport"%string, mkRule ["Gas Station"; "Uber"; "Taxi"]%string
                                 ["fuel"; "taxi"; "transport"]%string);
     ("Shopping"%string, mkRule ["Amazon"; "Clothing Store"]%string
                                ["shopping"; "clothes"]%string);
     ("Bills"%string, mkRule ["Electricity Company"; "Bank"]%string
                             ["bill"; "utility"]%string);
     ("Fun"%string, mkRule ["Cinema"; "Gym"]%string ["entertainment"; "gym"]%string);
     ("Health"%string, mkRule ["Pharmacy"; "Hospital"]%string ["health"; "medical"]%string);
     ("Other"%string, mkRule ["Post Office"; "Miscellaneous"]%string ["other"; "misc"]%string)].

(** [get_categories] *)
Definition get_categories (c : Config) : list string := keys (categories c).

(** [get_default_category] *)
Definition get_default_category (c : Config) : string :=
  match default_category (settings c) with Some d => d | None => "Other"%string end.

(** [is_auto_categorize_enabled] *)
Definition is_auto_categorize_enabled (c : Config) : bool :=
  match auto_categorize (settings c) with Some b => b | None => true end.

Section Categorize.

(** [str.lower] *)
Variable lower : string -> string.

(** First loop of [auto_categorize_store]: exact, case-insensitive. *)
Fixpoint find_store_match (name_lower : string) (cats : dict CategoryRule)
  : option string :=
  match cats with
  | [] => None
  | (cat, data) :: t =>
      if py_in name_lower (map lower (stores data)) then Some cat
      else find_store_match name_lower t
  end.

(** Second loop of [auto_categorize_store]: keyword substrings. *)
Fixpoint find_keyword_match (name_lower : string) (cats : dict CategoryRule)
  : option string :=
  match cats with
  | [] => None
  | (cat, data) :: t =>
      if existsb (fun kw => py_contains (lower kw) name_lower) (keywords data)
      then Some cat
      else find_keyword_match name_lower t
  end.

(** [auto_categorize_store] *)
Definition auto_categorize_store (c : Config) (store_name : string) : string :=
  if negb (is_auto_categorize_enabled c) then get_default_category c
  else
    let store_name_lower := lower store_name in
    match find_store_match store_name_lower (categories c) with
    | Some cat => cat
    | None =>
        match find_keyword_match store_name_lower (categories c) with
        | Some cat => cat
        | None => get_default_category c
        end
    end.

End Categorize.

(** The mutating methods return Python's boolean and the configuration
    after the call ([_save_config] swallows its own errors and leaves the
    in-memory mapping as it is). *)

(** [add_store_to_category] *)
Definition add_store_to_category (c : Config) (category store_name : string)
  : bool * Config :=
  match lookup category (categories c) with
  | None => (false, c)
  | Some data =>
      if negb (py_in store_name (stores data)) then
        (true, with_categories c
                 (set category (mkRule (py_sort (stores data ++ [store_name]))
                                       (keywords data)) (categories c)))
      else (false, c)
  end.

(** [remove_store_from_category] *)
Definition remove_store_from_category (c : Config) (category store_name : string)
  : bool * Config :=
  match lookup category (categories c) with
  | Some data =>
      if py_in store_name (stores data) then
        (true, with_categories c
                 (set category (mkRule (remove_first store_name (stores data))
                                       (keywords data)) (categories c)))
      else (false, c)
  | None => (false, c)
  end.

(** [add_category] *)
Definition add_category (c : Config) (category_name : string) : bool * Config :=
  if negb (mem category_name (categories c)) then
    (true, with_categories c (set category_name (mkRule [] []) (categories c)))
  else (false, c).

(** [remove_category] *)
Definition remove_category (c : Config) (category_name : string) : bool * Config :=
  if mem category_name (categories c) then
    (true, with_categories c (del category_name (categories c)))
  else (false, c).

(** [rename_category] *)
Definition rename_category (c : Config) (old_name new_name : string) : bool * Config :=
  if andb (mem old_name (categories c)) (negb (mem new_name (categories c))) then
    match lookup old_name (categories c) with
    | Some data =>
        let cats := del old_name (set new_name data (categories c)) in
        let st :=
          match default_category (settings c) with
          | Some d => if String.eqb d old_name
                      then mkSettings (Some new_name) (auto_categorize (settings c))
                      else settings c
          | None => settings c
          end in
        (true, mkConfig st cats)
    | None => (false, c)
    end
  else (false, c).

(** A configuration with a category listing the empty store. *)
Definition empty_store_config : Config :=
  mkConfig (mkSettings (Some "Other"%string) (Some true))
           [("Misc"%string, mkRule [EmptyString] [])].

(** [get_stores_for_category] *)
Definition get_stores_for_category (c : Config) (category : string) : list string :=
  match lookup category (categories c) with Some data => stores data | None => [] end.

(** [get_keywords_for_category] *)
Definition get_keywords_for_category (c : Config) (category : string) : list string :=
  match lookup category (categories c) with Some data => keywords data | None => [] end.

(** [get_all_stores]: [sorted(list(set(all_stores)))]; the iteration
    order of the set does not reach the sorted result. *)
Definition get_all_stores (c : Config) : list string :=
  py_sort (nodup string_dec
             (List.concat (map (get_stores_for_category c) (get_categories c)))).

Section Keywords.

(** [str.lower] *)
Variable lower : string -> string.

(** [add_keyword_to_category] *)
Definition add_keyword_to_category (c : Config) (category keyword : string)
  : bool * Config :=
  match lookup category (categories c) with
  | None => (false, c)
  | Some data =>
      if negb (py_in (lower keyword) (map lower (keywords data))) then
        (true, with_categories c
                 (set category (mkRule (stores data)
                                       (py_sort (keywords data ++ [lower keyword])))
                      (categories c)))
      else (false, c)
  end.

(** The loop of [remove_keyword_from_category]: the first keyword whose
    lower-case form is [kw_lower]. *)
Fixpoint first_ci (kw_lower : string) (l : list string) : option string :=
  match l with
  | [] => None
  | k :: t => if String.eqb (lower k) kw_lower then Some k else first_ci kw_lower t
  end.

(** [remove_keyword_from_category] *)
Definition remove_keyword_from_category (c : Config) (category keyword : string)
  : bool * Config :=
  match lookup category (categories c) with
  | Some data =>
      let kws := keywords data in
      if py_in (lower keyword) (map lower kws) then
        let kws' := match first_ci (lower keyword) kws with
                    | Some k => remove_first k kws
                    | None => kws
                    end in
        (true, with_categories c (set category (mkRule (stores data) kws') (categories c)))
      else (false, c)
  | None => (false, c)
  end.

End Keywords.

(** [update_settings(default_category=None, auto_categorize=None)] *)
Definition update_settings (c : Config) (dc : option string) (ac : option bool)
  : bool * Config :=
  let st := settings c in
  (true, mkConfig
           (mkSettings (match dc with Some d => Some d | None => default_category st end)
                       (match ac with Some a => Some a | None => auto_categorize st end))
           (categories c)).

End Config.

(* ------------------------------------------------------------------ *)
(** ** Budgets (amounts as exact decimals, i.e. rationals) *)

Module Budget.
Import PyDict.

Local Open Scope Q_scope.

(** One entry of [config["budgets"]], as written by [set_budget]. *)
Record BudgetDef := mkBudget {
  amount : Q; period : string; start_date : string; is_active : bool }.

(** [config["budget_settings"]]; absent keys are [None]. *)
Record BudgetSettings := mkBudgetSettings {
  warning_threshold_opt : option Q; alert_threshold_opt : option Q }.

(** [get_budget_settings] with its defaults 80 and 100. *)
Definition warning_threshold (s : BudgetSettings) : Q :=
  match warning_threshold_opt s with Some w => w | None => 80 end.
Definition alert_threshold (s : BudgetSettings) : Q :=
  match alert_threshold_opt s with Some a => a | None => 100 end.

Inductive StatusLabel := no_budget | ok | warning | alert.

Record BudgetStatus := mkStatus {
  has_budget : bool; budget : Q; spent : Q; remaining : Q;
  percentage : Q; status : StatusLabel; status_period : option string }.

(** The threshold rule shared by [calculate_budget_status] and the
    overview of [app.py]. *)
Definition threshold_label (s : BudgetSettings) (percentage : Q) : StatusLabel :=
  if Qle_bool (alert_threshold s) percentage then alert
  else if Qle_bool (warning_threshold s) percentage then warning
  else ok.

(** [calculate_budget_status(category, spent_amount)] over the budgets
    and budget settings of the configuration. *)
Definition calculate_budget_status (budgets : dict BudgetDef) (s : BudgetSettings)
    (category : string) (spent_amount : Q) : BudgetStatus :=
  match lookup category budgets with
  | None => mkStatus false 0 spent_amount 0 0 no_budget None
  | Some b =>
      let budget_amount := amount b in
      let percentage := if Qeq_bool budget_amount 0 then 0
                        else (spent_amount / budget_amount) * 100 in
      let remaining := budget_amount - spent_amount in
      mkStatus true budget_amount spent_amount remaining percentage
               (threshold_label s percentage) (Some (period b))
  end.

(** [sum(...)] *)
Definition qsum (l : list Q) : Q := fold_right Qplus 0 l.

(** A period-filtered expense as [groupby('Category')['Amount'].sum()]
    sees it: the Category cell ([None] when the cell is empty, which the
    sheet reader gives as NaN) and the Amount after [pd.to_numeric]
    ([None] for NaN). *)
Definition Expense : Type := option string * option Q.

(** The contribution of an amount to a group's [sum()], which skips NaN. *)
Definition amount_or_zero (a : option Q) : Q :=
  match a with Some v => v | None => 0 end.

(** One step of [groupby('Category')['Amount'].sum()]: add the amount to
    the group of its category; a row whose Category is NaN is in no group
    ([dropna=True]). The key order of the resulting dict does not enter
    any of the sums below. *)
Definition group_add (acc : dict Q) (row : Expense) : dict Q :=
  match row with
  | (Some cat, amt) =>
      match lookup cat acc with
      | Some v => set cat (v + amount_or_zero amt) acc
      | None => set cat (amount_or_zero amt) acc
      end
  | (None, _) => acc
  end.

(** [spending_by_category] of [app.py] for the period-filtered expenses. *)
Definition spending_by_category (period_expenses : list Expense) : dict Q :=
  fold_left group_add period_expenses [].

(** [total_budgeted] of [app.py] *)
Definition total_budgeted (budgets : dict BudgetDef) : Q :=
  qsum (map amount (filter is_active (values budgets))).

(** [total_spent] of [app.py] *)
Definition total_spent (period_expenses : list Expense) : Q :=
  qsum (values (spending_by_category period_expenses)).

(** The spec's reading of [total_spent]: per-category spend summed over
    the categories that have a budget. *)
Definition spec_budgeted_spent (budgets : dict BudgetDef)
    (period_expenses : list Expense) : Q :=
  qsum (map (fun cat => match lookup cat (spending_by_category period_expenses) with
                        | Some v => v | None => 0 end) (keys budgets)).

(** The budgets of the spec's worked example. *)
Definition example_budgets : dict BudgetDef :=
  [("Food"%string, mkBudget 200 "monthly"%string EmptyString true)].
Definition example_settings : BudgetSettings := mkBudgetSettings (Some 80) (Some 100).

(** The inputs of the C1 counterexample: a budget for "Food" only, and a
    period whose only expense is in "Fun". *)
Definition cex_budgets : dict BudgetDef :=
  [("Food"%string, mkBudget 100 "monthly"%string EmptyString true)].
Definition cex_expenses : list Expense := [(Some "Fun"%string, Some 30)].

(** [get_budgets]: [config.get("budgets", {})]. *)
Definition get_budgets (b : option (dict BudgetDef)) : dict BudgetDef :=
  match b with Some d => d | None => [] end.

(** [set_budget] on [config["budgets"]] (created when absent). *)
Definition set_budget (b : option (dict BudgetDef)) (category : string) (amount : Q)
    (period start_date : string) (is_active : bool) : bool * option (dict BudgetDef) :=
  (true, Some (set category (mkBudget amount period start_date is_active) (get_budgets b))).

(** [delete_budget] *)
Definition delete_budget (b : option (dict BudgetDef)) (category : string)
  : bool * option (dict BudgetDef) :=
  match b with
  | Some d => if mem category d then (true, Some (del category d)) else (false, b)
  | None => (false, b)
  end.

End Budget.

(* ------------------------------------------------------------------ *)
(** ** Recurring items: the yearly estimate of [view_recurrings] *)

Module Recurring.

Local Open Scope Q_scope.

(** A row of the recurrings sheet; [Amount] after
    [pd.to_numeric(errors='coerce')], [None] standing for NaN. *)
Record RecurringItem := mkItem {
  name : string; amount : option Q; frequency : string; status : string }.

(** [Series.sum()] skips NaN. *)
Definition amount_sum (items : list RecurringItem) : Q :=
  fold_right (fun it acc => match amount it with Some a => a + acc | None => acc end)
             0 items.

(** [total_yearly = recurrings_df['Amount'].sum() * 12 if not recurrings_df.empty else 0] *)
Definition total_yearly (items : list RecurringItem) : Q :=
  match items with
  | [] => 0
  | _ => amount_sum items * 12
  end.

(** The spec's [yearly_cost_estimate]: 12 times the amount of each
    active item. *)
Definition spec_yearly_cost_estimate (items : list RecurringItem) : Q :=
  fold_right (fun it acc =>
                match amount it with
                | Some a => if String.eqb (status it) "Active" then a * 12 + acc else acc
                | None => acc
                end) 0 items.

(** A single cancelled item of 10 per month. *)
Definition cex_items : list RecurringItem :=
  [mkItem "Gym"%string (Some 10) "Monthly"%string "Cancelled"%string].

End Recurring.

(* ------------------------------------------------------------------ *)
(** ** Budget periods: Python's naive [datetime] *)

Module Period.

(** A naive [datetime.datetime]. *)
Record datetime := mkDT {
  year : Z; month : Z; day : Z;
  hour : Z; minute : Z; second : Z; microsecond : Z }.

(** [calendar.isleap] *)
Definition is_leap (y : Z) : bool :=
  (y mod 4 =? 0) && (negb (y mod 100 =? 0) || (y mod 400 =? 0)).

(** [calendar.monthrange(y, m)[1]] *)
Definition days_in_month (y m : Z) : Z :=
  match m with
  | 1 => 31 | 2 => if is_leap y then 29 else 28 | 3 => 31 | 4 => 30
  | 5 => 31 | 6 => 30 | 7 => 31 | 8 => 31 | 9 => 30 | 10 => 31
  | 11 => 30 | 12 => 31 | _ => 0
  end.

(** [_days_before_year] *)
Definition days_before_year (y : Z) : Z :=
  let y' := y - 1 in y' * 365 + y' / 4 - y' / 100 + y' / 400.

(** [_days_before_month] *)
Definition days_before_month (y m : Z) : Z :=
  let base := match m with
              | 1 => 0 | 2 => 31 | 3 => 59 | 4 => 90 | 5 => 120 | 6 => 151
              | 7 => 181 | 8 => 212 | 9 => 243 | 10 => 273 | 11 => 304
              | 12 => 334 | _ => 0
              end in
  base + (if (2 <? m) && is_leap y then 1 else 0).

(** [datetime.toordinal] (0001-01-01 is day 1) *)
Definition toordinal (d : datetime) : Z :=
  days_before_year (year d) + days_before_month (year d) (month d) + day d.

(** [datetime.weekday]: Monday is 0, Sunday is 6. *)
Definition weekday (d : datetime) : Z := (toordinal d + 6) mod 7.

(** [MINYEAR], [MAXYEAR] *)
Definition MINYEAR : Z := 1.
Definition MAXYEAR : Z := 9999.

(** The range checks of the [datetime] constructor. *)
Definition valid_datetime (d : datetime) : bool :=
  (MINYEAR <=? year d) && (year d <=? MAXYEAR) &&
  (1 <=? month d) && (month d <=? 12) &&
  (1 <=? day d) && (day d <=? days_in_month (year d) (month d)) &&
  (0 <=? hour d) && (hour d <? 24) &&
  (0 <=? minute d) && (minute d <? 60) &&
  (0 <=? second d) && (second d <? 60) &&
  (0 <=? microsecond d) && (microsecond d <? 1000000).

Definition with_date (d : datetime) (y m dd : Z) : datetime :=
  mkDT y m dd (hour d) (minute d) (second d) (microsecond d).

(** The calendar day after [d]; [None] past 9999-12-31. *)
Definition next_day (d : datetime) : option datetime :=
  if day d <? days_in_month (year d) (month d) then
    Some (with_date d (year d) (month d) (day d + 1))
  else if month d <? 12 then Some (with_date d (year d) (month d + 1) 1)
  else if year d <? MAXYEAR then Some (with_date d (year d + 1) 1 1)
  else None.

(** The calendar day before [d]; [None] before 0001-01-01. *)
Definition prev_day (d : datetime) : option datetime :=
  if 1 <? day d then Some (with_date d (year d) (month d) (day d - 1))
  else if 1 <? month d then
    Some (with_date d (year d) (month d - 1) (days_in_month (year d) (month d - 1)))
  else if MINYEAR <? year d then Some (with_date d (year d - 1) 12 31)
  else None.

Fixpoint iter_days (step : datetime -> option datetime) (n : nat) (d : datetime)
  : option datetime :=
  match n with
  | O => Some d
  | S n' => match step d with Some d' => iter_days step n' d' | None => None end
  end.

(** Moving the date by [k] days, time of day kept; [None] where Python
    raises [OverflowError] (result outside years 1..9999). *)
Definition add_days (k : Z) (d : datetime) : option datetime :=
  if 0 <=? k then iter_days next_day (Z.to_nat k) d
  else iter_days prev_day (Z.to_nat (- k)) d.

(** A normalised [timedelta]: [0 <= seconds < 86400],
    [0 <= microseconds < 10^6]. *)
Record timedelta := mkTD { td_days : Z; td_seconds : Z; td_microseconds : Z }.

(** [timedelta(days=k)] *)
Definition td_of_days (k : Z) : timedelta := mkTD k 0 0.

Definition US_PER_DAY : Z := 86400000000.

Definition time_us (d : datetime) : Z :=
  ((hour d * 60 + minute d) * 60 + second d) * 1000000 + microsecond d.

(** [datetime + timedelta]: the time of day plus the sub-day part of the
    delta carries into the day count. *)
Definition dt_add (d : datetime) (td : timedelta) : option datetime :=
  let total := time_us d + td_seconds td * 1000000 + td_microseconds td in
  let carry := total / US_PER_DAY in
  let rem := total mod US_PER_DAY in
  let secs := rem / 1000000 in
  match add_days (td_days td + carry) d with
  | Some d' =>
      Some (mkDT (year d') (month d') (day d')
                 (secs / 3600) ((secs mod 3600) / 60) (secs mod 60)
                 (rem mod 1000000))
  | None => None
  end.

(** [datetime - timedelta(days=k)] *)
Definition dt_sub_days (d : datetime) (k : Z) : option datetime :=
  dt_add d (td_of_days (- k)).

(** [d.replace(day=.., hour=.., minute=.., second=.., microsecond=..)];
    [None] where Python raises [ValueError]. *)
Definition dt_replace (d : datetime) (dd h mi s us : Z) : option datetime :=
  let r := mkDT (year d) (month d) dd h mi s us in
  if valid_datetime r then Some r else None.

(** [get_monthly_period(date)] *)
Definition get_monthly_period (date : datetime) : option (datetime * datetime) :=
  match dt_replace date 1 0 0 0 0 with
  | Some start =>
      let last_day := days_in_month (year date) (month date) in
      match dt_replace date last_day 23 59 59 999999 with
      | Some end_ => Some (start, end_)
      | None => None
      end
  | None => None
  end.

(** [get_weekly_period(date)] *)
Definition get_weekly_period (date : datetime) : option (datetime * datetime) :=
  match dt_sub_days date (weekday date) with
  | Some start0 =>
      match dt_replace start0 (day start0) 0 0 0 0 with
      | Some start =>
          (* timedelta(days=6, hours=23, minutes=59, seconds=59,
             microseconds=999999) *)
          match dt_add start (mkTD 6 86399 999999) with
          | Some end_ => Some (start, end_)
          | None => None
          end
      | None => None
      end
  | None => None
  end.

(** [toordinal] of 9999-12-31, [date.max]. *)
Definition MAXORDINAL : Z := 3652059.

(** [(a - b).days] for two naive datetimes: the day part of the
    normalised difference, rounded towards minus infinity. *)
Definition dt_diff_days (a b : datetime) : Z :=
  ((toordinal a - toordinal b) * US_PER_DAY + (time_us a - time_us b)) / US_PER_DAY.

(** [get_current_period_dates(period)] at the moment [now]. *)
Definition get_current_period_dates (period : string) (now : datetime)
  : option (datetime * datetime) :=
  if String.eqb period "weekly" then get_weekly_period now else get_monthly_period now.

End Period.

(* ------------------------------------------------------------------ *)
(** ** Ledger merge: [user_utils.get_user_and_shared_data] *)

Module Ledger.
Import PyDict.

Local Open Scope string_scope.

(** A sheet row: column name to cell value. *)
Definition Row := dict string.

(** A [DataFrame] as its list of rows. *)
Definition DataFrame := list Row.

(** [df['_source'] = tag], applied to one row. *)
Definition stamp (tag : string) (r : Row) : Row := set "_source" tag r.

Definition source_of (r : Row) : option string := lookup "_source" r.

(** The fallback worksheet names of [get_worksheet_names]. *)
Definition fallback_worksheet_names (user_id : string) : dict string :=
  let suffix := if String.eqb user_id "shared" then user_id
                else if String.eqb user_id "user1" then "taras" else "dana" in
  [("expenses", "expenses_" ++ suffix); ("income", "income_" ++ suffix);
   ("recurrings", "recurrings_" ++ suffix); ("investments", "investments_" ++ suffix)].

(** [get_worksheet_names(user_id)]; [secrets] is
    [st.secrets["connections"]["gsheets"]["worksheets"]] when present. A
    missing key raises inside the [try] and selects the fallback. *)
Definition get_worksheet_names (secrets : option (dict string)) (user_id : string)
  : dict string :=
  match secrets with
  | Some ws =>
      match lookup ("expenses_" ++ user_id) ws, lookup ("income_" ++ user_id) ws,
            lookup ("recurrings_" ++ user_id) ws, lookup ("investments_" ++ user_id) ws with
      | Some e, Some i, Some r, Some v =>
          [("expenses", e); ("income", i); ("recurrings", r); ("investments", v)]
      | _, _, _, _ => fallback_worksheet_names user_id
      end
  | None => fallback_worksheet_names user_id
  end.

(** One [try] block: resolve the worksheet, read it, and keep the stamped
    frame when it is not empty; [None] when nothing is appended to [dfs]
    (a [KeyError] on [data_type], a failed [conn.read], or an empty
    frame). [read] is [conn.read(worksheet=..., ttl=0)], [None] when it
    raises. *)
Definition load_partition (secrets : option (dict string))
    (read : string -> option DataFrame) (owner data_type tag : string)
  : option DataFrame :=
  match lookup data_type (get_worksheet_names secrets owner) with
  | None => None
  | Some ws =>
      match read ws with
      | None => None
      | Some [] => None
      | Some df => Some (map (stamp tag) df)
      end
  end.

Definition opt_list {A} (o : option A) : list A :=
  match o with Some x => [x] | None => [] end.

(** [get_user_and_shared_data(conn, user_id, data_type)]; [pd.concat]
    with [ignore_index=True] as list concatenation, [pd.DataFrame()] as
    the empty frame. *)
Definition get_user_and_shared_data (secrets : option (dict string))
    (read : string -> option DataFrame) (user_id data_type : string) : DataFrame :=
  let dfs := app (opt_list (load_partition secrets read user_id data_type "personal"))
                 (opt_list (load_partition secrets read "shared" data_type "shared")) in
  List.concat dfs.

(** Three rows of the shared expenses sheet. *)
Definition shared_rows : DataFrame :=
  [[("Amount", "12")]; [("Amount", "7")]; [("Amount", "3")]].

(** A store where only the shared expenses sheet can be read. *)
Definition read_shared_only (ws : string) : option DataFrame :=
  if String.eqb ws "expenses_shared" then Some shared_rows else None.

End Ledger.

(* ------------------------------------------------------------------ *)
(** ** Recurring payments: next due date and due status *)

Module Schedule.
Import Period.

(** The day count of [calculate_next_due_date]'s if-chain:
    [timedelta(weeks=1)] is 7 days, [weeks=2] is 14. *)
Definition frequency_days (frequency : string) : Z :=
  if String.eqb frequency "Daily" then 1
  else if String.eqb frequency "Weekly" then 7
  else if String.eqb frequency "Bi-weekly" then 14
  else if String.eqb frequency "Monthly" then 30
  else if String.eqb frequency "Quarterly" then 90
  else if String.eqb frequency "Yearly" then 365
  else 30.

(** [calculate_next_due_date] ([None] where Python overflows). *)
Definition calculate_next_due_date (last_paid : datetime) (frequency : string)
  : option datetime :=
  dt_add last_paid (td_of_days (frequency_days frequency)).

(** The status colour of a row of the recurring list. *)
Inductive DueLabel := overdue | due_soon | upcoming | no_due_date.

(** The status block of [view_recurrings]: the label and
    [days_until = (next_due - datetime.now()).days]. *)
Definition due_status (next_due : option datetime) (now : datetime) : DueLabel * Z :=
  match next_due with
  | Some nd =>
      let days_until := dt_diff_days nd now in
      if days_until <? 0 then (overdue, days_until)
      else if days_until <=? 3 then (due_soon, days_until)
      else (upcoming, days_until)
  | None => (no_due_date, 0)
  end.

End Schedule.

(* ------------------------------------------------------------------ *)
(** ** Day counts of the spending rate analysis of the overview page *)

Module Pace.
Import Period.

(** [days_in_period] and [days_elapsed] of [src/app.py]. The page reads
    the clock twice: [now = datetime.now()], then [get_current_period_dates]
    reads it again; [now'] is that second reading. *)
Definition period_days (now now' : datetime) : option (Z * Z) :=
  match get_current_period_dates "monthly" now' with
  | Some (start, end_) => Some (dt_diff_days end_ start + 1, dt_diff_days now start + 1)
  | None => None
  end.

End Pace.

(* ------------------------------------------------------------------ *)
(** ** Account balance settings *)

Module Balance.

Local Open Scope Q_scope.

(** [config["account_settings"]]; absent keys are [None]. *)
Record AccountSettings := mkAccount {
  initial_balance : option Q; initial_balance_date : option string;
  initial_balance_notes : option string; currency : option string }.

Definition empty_account : AccountSettings := mkAccount None None None None.

Definition opt_default {A} (o : option A) (dflt : A) : A :=
  match o with Some x => x | None => dflt end.

(** [get_initial_balance]: balance, date, notes and currency. *)
Definition get_initial_balance (a : option AccountSettings) : Q * string * string * string :=
  let s := opt_default a empty_account in
  (opt_default (initial_balance s) 0, opt_default (initial_balance_date s) ""%string,
   opt_default (initial_balance_notes s) ""%string, opt_default (currency s) "EUR"%string).

(** [set_initial_balance] *)
Definition set_initial_balance (a : option AccountSettings) (amount : Q) (date notes : string)
  : bool * option AccountSettings :=
  let s := opt_default a empty_account in
  (true, Some (mkAccount (Some amount) (Some date) (Some notes)
                 (match currency s with Some c => Some c | None => Some "EUR"%string end))).

End Balance.

(* ------------------------------------------------------------------ *)
(** ** Trend arrows of the dashboard *)

Module Dashboard.

Local Open Scope Q_scope.

(** The pair returned by [get_trend_indicator]; the arrows carry
    [abs(change_pct)]. *)
Inductive Trend := flat_no_previous | flat_equal | trend_up (pct : Q) | trend_down (pct : Q).

(** [get_trend_indicator(current, previous)] *)
Definition get_trend_indicator (current previous : Q) : Trend :=
  if Qeq_bool previous 0 then flat_no_previous
  else
    let change_pct := (current - previous) / Qabs previous * 100 in
    if negb (Qle_bool 3 (Qabs change_pct)) then flat_equal
    else if negb (Qle_bool change_pct 0) then trend_up (Qabs change_pct)
    else trend_down (Qabs change_pct).

End Dashboard.

(* ================================================================== *)
(** * Properties *)

(* ------------------------------------------------------------------ *)
(** ** Dict and list helpers *)

Module DictFacts.
Import PyDict.

Lemma lookup_set_same {V} (k : string) (v : V) (d : dict V) :
  lookup k (set k v d) = Some v.
Proof.
  induction d as [|[k' v'] t IH]; cbn.
  - rewrite String.eqb_refl; reflexivity.
  - destruct (String.eqb k k') eqn:E; cbn; rewrite E; [reflexivity | exact IH].
Qed.

Lemma keys_set_new {V} (k : string) (v : V) (d : dict V) :
  lookup k d = None -> keys (set k v d) = keys d ++ [k].
Proof.
  induction d as [|[k' v'] t IH]; cbn; intro Hk; [reflexivity |].
  destruct (String.eqb k k'); [discriminate | cbn; f_equal; auto].
Qed.

Lemma lookup_set_new_other {V} (k k' : string) (v : V) (d : dict V) :
  k' <> k -> lookup k' (set k v d) = lookup k' d.
Proof.
  intro Hne. induction d as [|[k0 v0] t IH]; cbn.
  - apply String.eqb_neq in Hne. rewrite Hne. reflexivity.
  - destruct (String.eqb k k0) eqn:E; cbn.
    + apply String.eqb_eq in E; subst k0.
      apply String.eqb_neq in Hne. rewrite Hne. reflexivity.
    + destruct (String.eqb k' k0); [reflexivity | exact IH].
Qed.

Lemma keys_del {V} (k : string) (d : dict V) :
  keys (del k d) = filter (fun x => negb (String.eqb k x)) (keys d).
Proof.
  induction d as [|[k' v'] t IH]; cbn; [reflexivity |].
  destruct (negb (String.eqb k k')); cbn; [f_equal |]; exact IH.
Qed.

Lemma lookup_del_other {V} (k k' : string) (d : dict V) :
  k' <> k -> lookup k' (del k d) = lookup k' d.
Proof.
  intro Hne. induction d as [|[k0 v0] t IH]; cbn; [reflexivity |].
  destruct (String.eqb k k0) eqn:E; cbn.
  - apply String.eqb_eq in E; subst k0.
    apply String.eqb_neq in Hne. rewrite Hne. exact IH.
  - destruct (String.eqb k' k0); [reflexivity | exact IH].
Qed.

Lemma mem_lookup {V} (k : string) (d : dict V) (v : V) :
  lookup k d = Some v -> mem k d = true.
Proof. unfold mem. intros ->. reflexivity. Qed.

Lemma mem_lookup_none {V} (k : string) (d : dict V) :
  lookup k d = None -> mem k d = false.
Proof. unfold mem. intros ->. reflexivity. Qed.

Lemma py_in_iff (x : string) (l : list string) : py_in x l = true <-> In x l.
Proof.
  unfold py_in. rewrite existsb_exists. split.
  - intros [y [Hy Heq]]. apply String.eqb_eq in Heq. subst y. exact Hy.
  - intro H. exists x. split; [exact H | apply String.eqb_refl].
Qed.

Lemma count_insert_sorted (x y : string) (l : list string) :
  count_occ string_dec (insert_sorted y l) x = count_occ string_dec (y :: l) x.
Proof.
  induction l as [|a t IH]; cbn; [reflexivity |].
  destruct (String.leb y a); [reflexivity |].
  cbn. rewrite IH. cbn.
  destruct (string_dec a x), (string_dec y x); reflexivity.
Qed.

Lemma count_py_sort (x : string) (l : list string) :
  count_occ string_dec (py_sort l) x = count_occ string_dec l x.
Proof.
  induction l as [|a t IH]; cbn; [reflexivity |].
  rewrite count_insert_sorted. cbn. rewrite IH. reflexivity.
Qed.

Lemma py_contains_empty_hay (needle : string) :
  py_contains needle EmptyString = true -> needle = EmptyString.
Proof. destruct needle; cbn; [reflexivity | discriminate]. Qed.

End DictFacts.

(* ------------------------------------------------------------------ *)
(** ** Categorizer *)

Module CategorizerFacts.
Import PyDict Config DictFacts.

Section Lower.

Variable lower : string -> string.

Lemma find_store_match_prefix (name_lower C : string) (data : CategoryRule)
    (pre post : dict CategoryRule) :
  Forall (fun cd => forall s', In s' (stores (snd cd)) -> lower s' <> name_lower) pre ->
  (exists s, In s (stores data) /\ lower s = name_lower) ->
  find_store_match lower name_lower (pre ++ (C, data) :: post) = Some C.
Proof.
  intros Hpre [s [Hs Hl]]. induction Hpre as [|[cat d] t Hd _ IH]; cbn.
  - replace (py_in name_lower (map lower (stores data))) with true; [reflexivity |].
    symmetry. apply py_in_iff. rewrite <- Hl. apply in_map. exact Hs.
  - replace (py_in name_lower (map lower (stores d))) with false; [exact IH |].
    symmetry. apply not_true_iff_false. rewrite py_in_iff. intro Hin.
    apply in_map_iff in Hin. destruct Hin as [s' [Hs' Hin]].
    exact (Hd s' Hin Hs').
Qed.

Lemma find_store_match_none (name_lower : string) (cats : dict CategoryRule) :
  Forall (fun cd => forall s', In s' (stores (snd cd)) -> lower s' <> name_lower) cats ->
  find_store_match lower name_lower cats = None.
Proof.
  induction 1 as [|[cat d] t Hd _ IH]; cbn [find_store_match]; [reflexivity |].
  replace (py_in name_lower (map lower (stores d))) with false; [exact IH |].
  symmetry. apply not_true_iff_false. rewrite py_in_iff. intro Hin.
  apply in_map_iff in Hin. destruct Hin as [s' [Hs' Hin]].
  exact (Hd s' Hin Hs').
Qed.

Lemma find_keyword_match_prefix (name_lower C : string) (data : CategoryRule)
    (pre post : dict CategoryRule) :
  Forall (fun cd => forall k, In k (keywords (snd cd)) ->
                              py_contains (lower k) name_lower = false) pre ->
  (exists k, In k (keywords data) /\ py_contains (lower k) name_lower = true) ->
  find_keyword_match lower name_lower (pre ++ (C, data) :: post) = Some C.
Proof.
  intros Hpre Hex. induction Hpre as [|[cat d] t Hd _ IH]; cbn.
  - replace (existsb (fun kw => py_contains (lower kw) name_lower) (keywords data))
      with true; [reflexivity |].
    symmetry. apply existsb_exists. exact Hex.
  - replace (existsb (fun kw => py_contains (lower kw) name_lower) (keywords d))
      with false; [exact IH |].
    symmetry. apply not_true_iff_false. rewrite existsb_exists.
    intros [k [Hin Hc]]. rewrite (Hd k Hin) in Hc. discriminate.
Qed.

Lemma find_keyword_match_none (name_lower : string) (cats : dict CategoryRule) :
  Forall (fun cd => forall k, In k (keywords (snd cd)) ->
                              py_contains (lower k) name_lower = false) cats ->
  find_keyword_match lower name_lower cats = None.
Proof.
  induction 1 as [|[cat d] t Hd _ IH]; cbn [find_keyword_match]; [reflexivity |].
  replace (existsb (fun kw => py_contains (lower kw) name_lower) (keywords d))
    with false; [exact IH |].
  symmetry. apply not_true_iff_false. rewrite existsb_exists.
  intros [k [Hin Hc]]. rewrite (Hd k Hin) in Hc. discriminate.
Qed.

(** [str.lower] maps exactly the empty string to the empty string. *)
Hypothesis lower_empty : forall s, lower s = EmptyString <-> s = EmptyString.

Lemma lower_ne_empty (s : string) :
  s <> EmptyString -> lower s <> lower EmptyString.
Proof.
  intros Hs Heq. apply Hs, lower_empty. rewrite Heq. apply lower_empty. reflexivity.
Qed.

Lemma contains_lower_empty (k : string) :
  py_contains (lower k) (lower EmptyString) = true <-> k = EmptyString.
Proof.
  rewrite (proj2 (lower_empty EmptyString) eq_refl). split.
  - intro Hc. apply lower_empty, py_contains_empty_hay, Hc.
  - intros ->. rewrite (proj2 (lower_empty EmptyString) eq_refl). reflexivity.
Qed.

Lemma no_empty_store (cats : dict CategoryRule) :
  Forall (fun cd => ~ In EmptyString (stores (snd cd))) cats ->
  Forall (fun cd => forall s', In s' (stores (snd cd)) -> lower s' <> lower EmptyString) cats.
Proof.
  apply Forall_impl. intros cd Hn s' Hin. apply lower_ne_empty.
  intros ->. exact (Hn Hin).
Qed.

Lemma no_empty_keyword (cats : dict CategoryRule) :
  Forall (fun cd => ~ In EmptyString (keywords (snd cd))) cats ->
  Forall (fun cd => forall k, In k (keywords (snd cd)) ->
                              py_contains (lower k) (lower EmptyString) = false) cats.
Proof.
  apply Forall_impl. intros cd Hn k Hin. apply not_true_iff_false.
  rewrite contains_lower_empty. intros ->. exact (Hn Hin).
Qed.

End Lower.

Lemma ascii_str_lower_empty (s : string) :
  ascii_str_lower s = EmptyString <-> s = EmptyString.
Proof. destruct s; cbn; split; congruence. Qed.

(** C3: with auto-categorization on, a store name whose lower case equals
    the lower case of a store of category [C] is categorized as [C] when
    no earlier category lists such a store; keywords play no part. *)
Theorem categorize_exact_store_priority (lower : string -> string) (c : Config)
    (pre post : dict CategoryRule) (C : string) (data : CategoryRule)
    (s store_name : string) :
  is_auto_categorize_enabled c = true ->
  categories c = pre ++ (C, data) :: post ->
  Forall (fun cd => forall s', In s' (stores (snd cd)) ->
                               lower s' <> lower store_name) pre ->
  In s (stores data) ->
  lower s = lower store_name ->
  auto_categorize_store lower c store_name = C.
Proof.
  intros Hon Hcats Hpre Hs Hl. unfold auto_categorize_store.
  rewrite Hon, Hcats. cbn.
  rewrite (find_store_match_prefix lower (lower store_name) C data pre post Hpre).
  - reflexivity.
  - exists s. split; assumption.
Qed.

(** C7 (counterexample): the empty store name is matched by a category
    that lists the empty string as a store, so [categorize("")] is not
    the default category (all strings here are ASCII, on which
    [ascii_str_lower] is [str.lower]). *)
Lemma categorize_empty_not_default :
  auto_categorize_store ascii_str_lower empty_store_config EmptyString = "Misc"%string /\
  get_default_category empty_store_config = "Other"%string.
Proof. split; reflexivity. Qed.

(** C7 (amended): [categorize("")] returns the default category when
    auto-categorization is off, or when no category lists the empty
    string as a store or as a keyword. Otherwise it returns the first
    category that lists the empty string as a store, and when no category
    does, the first category that has the empty string as a keyword. *)
Theorem categorize_empty_default (lower : string -> string) (c : Config) :
  (forall s, lower s = EmptyString <-> s = EmptyString) ->
  ((is_auto_categorize_enabled c = false \/
    Forall (fun cd => ~ In EmptyString (stores (snd cd)) /\
                      ~ In EmptyString (keywords (snd cd))) (categories c)) ->
   auto_categorize_store lower c EmptyString = get_default_category c) /\
  (forall pre C data post,
     is_auto_categorize_enabled c = true ->
     categories c = pre ++ (C, data) :: post ->
     Forall (fun cd => ~ In EmptyString (stores (snd cd))) pre ->
     In EmptyString (stores data) ->
     auto_categorize_store lower c EmptyString = C) /\
  (forall pre C data post,
     is_auto_categorize_enabled c = true ->
     Forall (fun cd => ~ In EmptyString (stores (snd cd))) (categories c) ->
     categories c = pre ++ (C, data) :: post ->
     Forall (fun cd => ~ In EmptyString (keywords (snd cd))) pre ->
     In EmptyString (keywords data) ->
     auto_categorize_store lower c EmptyString = C).
Proof.
  intro Hle. split; [| split].
  - unfold auto_categorize_store. intros [Hoff | Hall].
    + rewrite Hoff. reflexivity.
    + destruct (is_auto_categorize_enabled c); cbn; [| reflexivity].
      rewrite find_store_match_none, find_keyword_match_none; [reflexivity | |].
      * apply no_empty_keyword; [exact Hle |].
        eapply Forall_impl; [| exact Hall]. cbn. intros cd [_ H]. exact H.
      * apply no_empty_store; [exact Hle |].
        eapply Forall_impl; [| exact Hall]. cbn. intros cd [H _]. exact H.
  - intros pre C data post Hon Hcats Hpre Hin.
    unfold auto_categorize_store. rewrite Hon, Hcats. cbn.
    rewrite (find_store_match_prefix lower (lower EmptyString) C data pre post).
    + reflexivity.
    + apply no_empty_store; assumption.
    + exists EmptyString. split; [exact Hin | reflexivity].
  - intros pre C data post Hon Hnone Hcats Hpre Hin.
    unfold auto_categorize_store. rewrite Hon. cbn.
    rewrite find_store_match_none by (apply no_empty_store; assumption).
    rewrite Hcats, (find_keyword_match_prefix lower (lower EmptyString) C data pre post).
    + reflexivity.
    + apply no_empty_keyword; assumption.
    + exists EmptyString. split; [exact Hin |]. apply contains_lower_empty; [exact Hle |].
      reflexivity.
Qed.

(** Witness of C3: "SUPERMARKET" against the default configuration. *)
Lemma categorize_exact_store_priority_witness :
  auto_categorize_store ascii_str_lower default_config "SUPERMARKET"%string = "Food"%string.
Proof.
  apply (categorize_exact_store_priority ascii_str_lower default_config []
           (tl (categories default_config)) "Food"%string
           (mkRule ["Supermarket"; "Restaurant"; "Café"]%string
                   ["food"; "restaurant"; "cafe"]%string)
           "Supermarket"%string).
  - reflexivity.
  - reflexivity.
  - constructor.
  - simpl. left. reflexivity.
  - reflexivity.
Defined.

(** Witness of C7: the default configuration has no empty store or
    keyword; a configuration with an empty keyword only. *)
Lemma categorize_empty_default_witness :
  auto_categorize_store ascii_str_lower default_config EmptyString = "Other"%string /\
  auto_categorize_store ascii_str_lower
    (mkConfig (mkSettings (Some "Other"%string) (Some true))
              [("A"%string, mkRule ["a"%string] []); ("B"%string, mkRule [] [EmptyString])])
    EmptyString = "B"%string.
Proof.
  split.
  - apply (categorize_empty_default ascii_str_lower default_config ascii_str_lower_empty).
    right. repeat constructor; simpl; intuition discriminate.
  - apply (proj2 (proj2 (categorize_empty_default ascii_str_lower
             (mkConfig (mkSettings (Some "Other"%string) (Some true))
                       [("A"%string, mkRule ["a"%string] []); ("B"%string, mkRule [] [EmptyString])])
             ascii_str_lower_empty))
             [("A"%string, mkRule ["a"%string] [])] "B"%string (mkRule [] [EmptyString]) []).
    + reflexivity.
    + repeat constructor; simpl; intuition discriminate.
    + reflexivity.
    + repeat constructor; simpl; intuition discriminate.
    + left. reflexivity.
Defined.

End CategorizerFacts.

(* ------------------------------------------------------------------ *)
(** ** ConfigManager mutations *)

Module ConfigOpsFacts.
Import PyDict Config DictFacts.

(** C8: adding a store that a category does not list yet succeeds; adding
    it again returns [false] and changes nothing, and the store is listed
    exactly once. *)
Theorem add_store_idempotent (c : Config) (category store : string)
    (data : CategoryRule) :
  lookup category (categories c) = Some data ->
  ~ In store (stores data) ->
  let r1 := add_store_to_category c category store in
  let r2 := add_store_to_category (snd r1) category store in
  fst r1 = true /\ fst r2 = false /\ snd r2 = snd r1 /\
  exists data1, lookup category (categories (snd r1)) = Some data1 /\
                count_occ string_dec (stores data1) store = 1%nat.
Proof.
  intros Hcat Hnot. cbn zeta.
  assert (Hin : py_in store (stores data) = false)
    by (apply not_true_iff_false; rewrite py_in_iff; exact Hnot).
  set (sorted := py_sort (stores data ++ [store])).
  set (c1 := with_categories c
               (set category (mkRule sorted (keywords data)) (categories c))).
  assert (E1 : add_store_to_category c category store = (true, c1))
    by (unfold add_store_to_category; rewrite Hcat, Hin; reflexivity).
  assert (Hlook : lookup category (categories c1) = Some (mkRule sorted (keywords data)))
    by apply lookup_set_same.
  assert (Hcount : count_occ string_dec sorted store = 1%nat).
  { unfold sorted. rewrite count_py_sort, count_occ_app.
    rewrite (proj1 (count_occ_not_In string_dec _ _) Hnot). cbn.
    destruct (string_dec store store) as [_ | n]; [reflexivity | contradiction]. }
  assert (Hin2 : py_in store sorted = true).
  { apply py_in_iff. apply (count_occ_In string_dec). lia. }
  rewrite E1. cbn [fst snd].
  unfold add_store_to_category. rewrite Hlook. cbn [stores]. rewrite Hin2. cbn.
  split; [reflexivity |]. split; [reflexivity |]. split; [reflexivity |].
  exists (mkRule sorted (keywords data)). split; [reflexivity | exact Hcount].
Qed.

(** C9: a successful rename moves the category to the end of the
    iteration order, with its rule unchanged. *)
Theorem rename_category_moves_last (c : Config) (old_name new_name : string)
    (data : CategoryRule) :
  lookup old_name (categories c) = Some data ->
  lookup new_name (categories c) = None ->
  fst (rename_category c old_name new_name) = true /\
  get_categories (snd (rename_category c old_name new_name)) =
    filter (fun k => negb (String.eqb old_name k)) (get_categories c) ++ [new_name] /\
  lookup new_name (categories (snd (rename_category c old_name new_name))) = Some data.
Proof.
  intros Hold Hnew.
  assert (Hne : new_name <> old_name) by (intros ->; congruence).
  unfold rename_category.
  rewrite (mem_lookup _ _ _ Hold), (mem_lookup_none _ _ Hnew), Hold.
  cbn [andb negb fst snd].
  split; [reflexivity |]. split.
  - unfold get_categories. cbn [categories]. rewrite keys_del, keys_set_new by exact Hnew.
    rewrite filter_app. cbn.
    replace (String.eqb old_name new_name) with false
      by (symmetry; apply String.eqb_neq; congruence).
    reflexivity.
  - cbn [categories]. rewrite lookup_del_other by exact Hne. apply lookup_set_same.
Qed.

(** C10: every validation failure of a category or store mutation leaves
    the configuration as it was. *)
Theorem validation_failure_no_change (c : Config) :
  (forall name, fst (add_category c name) = false -> snd (add_category c name) = c) /\
  (forall name, fst (remove_category c name) = false -> snd (remove_category c name) = c) /\
  (forall o n, fst (rename_category c o n) = false -> snd (rename_category c o n) = c) /\
  (forall cat s, fst (add_store_to_category c cat s) = false ->
                 snd (add_store_to_category c cat s) = c) /\
  (forall cat s, fst (remove_store_from_category c cat s) = false ->
                 snd (remove_store_from_category c cat s) = c).
Proof.
  repeat split.
  - intro name. unfold add_category.
    destruct (negb (mem name (categories c))); cbn; [discriminate | reflexivity].
  - intro name. unfold remove_category.
    destruct (mem name (categories c)); cbn; [discriminate | reflexivity].
  - intros o n. unfold rename_category.
    destruct (mem o (categories c) && negb (mem n (categories c)));
      [destruct (lookup o (categories c)) |]; cbn; [discriminate | reflexivity | reflexivity].
  - intros cat s. unfold add_store_to_category.
    destruct (lookup cat (categories c)); [destruct (negb (py_in s (stores c0))) |];
      cbn; [discriminate | reflexivity | reflexivity].
  - intros cat s. unfold remove_store_from_category.
    destruct (lookup cat (categories c)); [destruct (py_in s (stores c0)) |];
      cbn; [discriminate | reflexivity | reflexivity].
Qed.

(** Witness of C8: "Acme" added twice to "Food" of the default
    configuration. *)
Lemma add_store_idempotent_witness :
  fst (add_store_to_category default_config "Food"%string "Acme"%string) = true /\
  fst (add_store_to_category
         (snd (add_store_to_category default_config "Food"%string "Acme"%string))
         "Food"%string "Acme"%string) = false.
Proof.
  destruct (add_store_idempotent default_config "Food"%string "Acme"%string
              (mkRule ["Supermarket"; "Restaurant"; "Café"]%string
                      ["food"; "restaurant"; "cafe"]%string))
    as [H1 [H2 _]].
  - reflexivity.
  - simpl. intuition discriminate.
  - split; assumption.
Defined.

(** Witness of C9: renaming "Food" to "Groceries" in the default
    configuration. *)
Lemma rename_category_moves_last_witness :
  get_categories (snd (rename_category default_config "Food"%string "Groceries"%string)) =
  ["Transport"; "Shopping"; "Bills"; "Fun"; "Health"; "Other"; "Groceries"]%string.
Proof.
  destruct (rename_category_moves_last default_config "Food"%string "Groceries"%string
              (mkRule ["Supermarket"; "Restaurant"; "Café"]%string
                      ["food"; "restaurant"; "cafe"]%string))
    as [_ [H _]]; [reflexivity | reflexivity |].
  rewrite H. reflexivity.
Defined.

(** Witness of C10: adding the existing category "Food" fails without
    change. *)
Lemma validation_failure_no_change_witness :
  snd (add_category default_config "Food"%string) = default_config.
Proof.
  apply (proj1 (validation_failure_no_change default_config) "Food"%string).
  reflexivity.
Defined.

End ConfigOpsFacts.

(* ------------------------------------------------------------------ *)
(** ** Budget status and overview *)

Module BudgetFacts.
Import PyDict Budget.

Local Open Scope Q_scope.

Lemma threshold_label_spec (s : BudgetSettings) (p : Q) :
  (alert_threshold s <= p -> threshold_label s p = alert) /\
  (p < alert_threshold s -> warning_threshold s <= p -> threshold_label s p = warning) /\
  (p < alert_threshold s -> p < warning_threshold s -> threshold_label s p = ok).
Proof.
  unfold threshold_label. repeat split; intros.
  - apply Qle_bool_iff in H. rewrite H. reflexivity.
  - destruct (Qle_bool (alert_threshold s) p) eqn:E.
    + apply Qle_bool_iff in E. exfalso. apply (Qlt_not_le _ _ H E).
    + apply Qle_bool_iff in H0. rewrite H0. reflexivity.
  - destruct (Qle_bool (alert_threshold s) p) eqn:E.
    + apply Qle_bool_iff in E. exfalso. apply (Qlt_not_le _ _ H E).
    + destruct (Qle_bool (warning_threshold s) p) eqn:E2; [| reflexivity].
      apply Qle_bool_iff in E2. exfalso. apply (Qlt_not_le _ _ H0 E2).
Qed.

(** C4: per-category status. Without a budget the label is [no_budget]
    whatever the thresholds; with a budget the label follows the
    alert/warning/ok rule, [remaining = amount - spent], and for a
    positive amount [percentage = spent / amount * 100]; the worked
    example 200 / 150, 170, 250 with thresholds 80 and 100. *)
Theorem budget_status_rule (budgets : dict BudgetDef) (s : BudgetSettings)
    (category : string) (spent_amount : Q) :
  (lookup category budgets = None ->
   has_budget (calculate_budget_status budgets s category spent_amount) = false /\
   status (calculate_budget_status budgets s category spent_amount) = no_budget) /\
  (forall b, lookup category budgets = Some b ->
   let r := calculate_budget_status budgets s category spent_amount in
   has_budget r = true /\
   remaining r == amount b - spent_amount /\
   (0 < amount b -> percentage r == spent_amount / amount b * 100) /\
   (alert_threshold s <= percentage r -> status r = alert) /\
   (percentage r < alert_threshold s -> warning_threshold s <= percentage r ->
    status r = warning) /\
   (percentage r < alert_threshold s -> percentage r < warning_threshold s ->
    status r = ok)) /\
  (let r150 := calculate_budget_status example_budgets example_settings "Food" 150 in
   let r170 := calculate_budget_status example_budgets example_settings "Food" 170 in
   let r250 := calculate_budget_status example_budgets example_settings "Food" 250 in
   percentage r150 == 75 /\ status r150 = ok /\
   percentage r170 == 85 /\ status r170 = warning /\
   percentage r250 == 125 /\ remaining r250 == -50 /\ status r250 = alert).
Proof.
  split; [| split].
  - unfold calculate_budget_status. intros ->. split; reflexivity.
  - intros b Hb. unfold calculate_budget_status. rewrite Hb. cbn zeta.
    destruct (threshold_label_spec s
                (if Qeq_bool (amount b) 0 then 0
                 else spent_amount / amount b * 100)) as [Ha [Hw Ho]].
    cbn [has_budget remaining percentage status].
    split; [reflexivity |]. split; [reflexivity |]. split.
    + intro Hpos. destruct (Qeq_bool (amount b) 0) eqn:E; [| reflexivity].
      apply Qeq_bool_iff in E. rewrite E in Hpos. discriminate.
    + split; [exact Ha |]. split; [exact Hw | exact Ho].
  - vm_compute. repeat split; reflexivity.
Qed.

Lemma qsum_cons (x : Q) (l : list Q) : qsum (x :: l) = x + qsum l.
Proof. reflexivity. Qed.

Lemma qsum_values_cons (k : string) (v : Q) (t : dict Q) :
  qsum (values ((k, v) :: t)) = v + qsum (values t).
Proof. reflexivity. Qed.

Lemma qsum_values_set_found (k : string) (v w : Q) (d : dict Q) :
  lookup k d = Some v -> qsum (values (set k w d)) == qsum (values d) - v + w.
Proof.
  induction d as [|[k' v'] t IH]; cbn [lookup set]; [discriminate |].
  destruct (String.eqb k k'); intro H; rewrite !qsum_values_cons.
  - injection H as ->. lra.
  - specialize (IH H). lra.
Qed.

Lemma qsum_values_set_new (k : string) (w : Q) (d : dict Q) :
  lookup k d = None -> qsum (values (set k w d)) == qsum (values d) + w.
Proof.
  induction d as [|[k' v'] t IH]; cbn [lookup set]; intro H.
  - rewrite qsum_values_cons. cbn. lra.
  - destruct (String.eqb k k'); [discriminate |].
    rewrite !qsum_values_cons. specialize (IH H). lra.
Qed.

(** The amount a row adds to the groups: its amount (NaN counting 0)
    when it has a category, nothing otherwise. *)
Lemma qsum_values_group_add (acc : dict Q) (row : Expense) :
  qsum (values (group_add acc row)) ==
  qsum (values acc) + match fst row with
                      | Some _ => amount_or_zero (snd row)
                      | None => 0
                      end.
Proof.
  destruct row as [[cat |] amt]; unfold group_add; cbn [fst snd].
  - destruct (lookup cat acc) as [v |] eqn:E.
    + pose proof (qsum_values_set_found cat v (v + amount_or_zero amt) acc E). lra.
    + apply qsum_values_set_new. exact E.
  - lra.
Qed.

Lemma qsum_values_fold (rows : list Expense) (acc : dict Q) :
  qsum (values (fold_left group_add rows acc)) ==
  qsum (values acc) +
  qsum (map (fun e : Expense => amount_or_zero (snd e))
            (filter (fun e : Expense => match fst e with Some _ => true | None => false end)
                    rows)).
Proof.
  revert acc. induction rows as [|row t IH]; intro acc; cbn [fold_left filter].
  - change (qsum (map _ [])) with 0. lra.
  - pose proof (IH (group_add acc row)) as H1.
    pose proof (qsum_values_group_add acc row) as H2.
    destruct (fst row); cbn [map]; [rewrite qsum_cons |]; lra.
Qed.

(** C1 (counterexample): spending in "Fun", which has no budget, counts in
    [total_spent], while the spend restricted to budgeted categories is 0. *)
Lemma total_spent_counts_unbudgeted :
  total_spent cex_expenses == 30 /\
  spec_budgeted_spent cex_budgets cex_expenses == 0 /\
  ~ (total_spent cex_expenses == spec_budgeted_spent cex_budgets cex_expenses).
Proof. vm_compute. split; [reflexivity | split; [reflexivity | discriminate]]. Qed.

(** C1 (amended): [total_budgeted] sums the amounts of the active budget
    definitions only, and [total_spent] is the sum of the amounts of all
    period-filtered expenses that have a category, in whatever category,
    budgeted or not; a row with an empty Category cell counts for
    nothing and an empty (NaN) amount counts 0. *)
Theorem overview_totals (budgets : dict BudgetDef) (period_expenses : list Expense) :
  total_budgeted budgets ==
    qsum (map (fun kb => if is_active (snd kb) then amount (snd kb) else 0) budgets) /\
  total_spent period_expenses ==
    qsum (map (fun e : Expense => amount_or_zero (snd e))
              (filter (fun e : Expense => match fst e with Some _ => true | None => false end)
                      period_expenses)).
Proof.
  split.
  - unfold total_budgeted, values.
    induction budgets as [|[k b] t IH]; [reflexivity |].
    cbn [map filter snd].
    destruct (is_active b); cbn [map]; rewrite !qsum_cons; lra.
  - unfold total_spent, spending_by_category.
    pose proof (qsum_values_fold period_expenses []) as H.
    change (qsum (values [])) with 0 in H. lra.
Qed.

(** Witness of C4: the example budget, and the unbudgeted "Fun". *)
Lemma budget_status_rule_witness :
  has_budget (calculate_budget_status example_budgets example_settings "Food" 170) = true /\
  status (calculate_budget_status example_budgets example_settings "Fun" 170) = no_budget.
Proof.
  destruct (budget_status_rule example_budgets example_settings "Food" 170) as [_ [H _]].
  destruct (budget_status_rule example_budgets example_settings "Fun" 170) as [H' _].
  split.
  - exact (proj1 (H (mkBudget 200 "monthly"%string EmptyString true) eq_refl)).
  - exact (proj2 (H' eq_refl)).
Defined.

End BudgetFacts.

(* ------------------------------------------------------------------ *)
(** ** Yearly estimate of recurring items *)

Module RecurringFacts.
Import Recurring.

Local Open Scope Q_scope.

(** C2 (counterexample): a cancelled item still adds 12 times its amount
    to the estimate, while the active-only sum is 0. *)
Lemma yearly_counts_cancelled :
  total_yearly cex_items == 120 /\ spec_yearly_cost_estimate cex_items == 0.
Proof. vm_compute. split; reflexivity. Qed.

(** C2 (amended): the estimate is the sum of 12 times the amount of every
    item with a numeric amount, whatever its status and frequency. *)
Theorem yearly_all_items (items : list RecurringItem) :
  total_yearly items ==
    fold_right (fun it acc => match amount it with
                              | Some a => a * 12 + acc | None => acc end) 0 items /\
  (forall st fr,
     total_yearly (map (fun it => mkItem (name it) (amount it) fr st) items) ==
     total_yearly items).
Proof.
  split.
  - unfold total_yearly. destruct items as [|it0 t]; [reflexivity |].
    assert (Hsum : forall l, amount_sum l * 12 ==
              fold_right (fun it acc => match amount it with
                                        | Some a => a * 12 + acc | None => acc end) 0 l).
    { induction l as [|it l IH]; [reflexivity |].
      change (amount_sum (it :: l)) with
        (match amount it with Some a => a + amount_sum l | None => amount_sum l end).
      cbn [fold_right]. destruct (amount it); lra. }
    apply Hsum.
  - intros st fr. unfold total_yearly.
    destruct items as [|it0 t]; [reflexivity |].
    cbn [map]. assert (Hs : forall l, amount_sum (map (fun it => mkItem (name it) (amount it) fr st) l)
                                   = amount_sum l).
    { induction l as [|it l IH]; [reflexivity |].
      cbn [map]. unfold amount_sum at 1. cbn [fold_right amount].
      fold (amount_sum (map (fun it => mkItem (name it) (amount it) fr st) l)).
      rewrite IH. reflexivity. }
    rewrite <- (Hs (it0 :: t)). reflexivity.
Qed.

End RecurringFacts.

(* ------------------------------------------------------------------ *)
(** ** Calendar arithmetic and period bounds *)

Module PeriodFacts.
Import Period.

Lemma valid_datetime_iff (d : datetime) :
  valid_datetime d = true <->
  (1 <= year d <= 9999 /\ 1 <= month d <= 12 /\
   1 <= day d <= days_in_month (year d) (month d) /\
   0 <= hour d < 24 /\ 0 <= minute d < 60 /\ 0 <= second d < 60 /\
   0 <= microsecond d < 1000000).
Proof.
  unfold valid_datetime, MINYEAR, MAXYEAR.
  rewrite !andb_true_iff, !Z.leb_le, !Z.ltb_lt. tauto.
Qed.

Lemma days_in_month_range (y m : Z) :
  1 <= m <= 12 -> 28 <= days_in_month y m <= 31.
Proof.
  intro Hm.
  assert (m = 1 \/ m = 2 \/ m = 3 \/ m = 4 \/ m = 5 \/ m = 6 \/ m = 7 \/
          m = 8 \/ m = 9 \/ m = 10 \/ m = 11 \/ m = 12) as Hc by lia.
  unfold days_in_month.
  repeat destruct Hc as [-> | Hc]; try (subst m); try (destruct (is_leap y)); lia.
Qed.

Lemma days_before_month_step (y m : Z) :
  1 <= m <= 11 ->
  days_before_month y (m + 1) = days_before_month y m + days_in_month y m.
Proof.
  intro Hm.
  assert (m = 1 \/ m = 2 \/ m = 3 \/ m = 4 \/ m = 5 \/ m = 6 \/ m = 7 \/
          m = 8 \/ m = 9 \/ m = 10 \/ m = 11) as Hc by lia.
  unfold days_before_month, days_in_month.
  repeat destruct Hc as [-> | Hc]; try (subst m); cbn;
    destruct (is_leap y); reflexivity.
Qed.

Lemma days_before_year_step (y : Z) :
  days_before_year (y + 1) =
  days_before_year y + 365 + (if is_leap y then 1 else 0).
Proof.
  unfold days_before_year, is_leap.
  replace (y + 1 - 1) with y by lia.
  pose proof (Z.div_mod y 4 ltac:(lia)). pose proof (Z.mod_pos_bound y 4 ltac:(lia)).
  pose proof (Z.div_mod y 100 ltac:(lia)). pose proof (Z.mod_pos_bound y 100 ltac:(lia)).
  pose proof (Z.div_mod y 400 ltac:(lia)). pose proof (Z.mod_pos_bound y 400 ltac:(lia)).
  pose proof (Z.div_mod (y - 1) 4 ltac:(lia)).
  pose proof (Z.mod_pos_bound (y - 1) 4 ltac:(lia)).
  pose proof (Z.div_mod (y - 1) 100 ltac:(lia)).
  pose proof (Z.mod_pos_bound (y - 1) 100 ltac:(lia)).
  pose proof (Z.div_mod (y - 1) 400 ltac:(lia)).
  pose proof (Z.mod_pos_bound (y - 1) 400 ltac:(lia)).
  destruct (Z.eqb_spec (y mod 4) 0), (Z.eqb_spec (y mod 100) 0),
           (Z.eqb_spec (y mod 400) 0); cbn;
  generalize dependent (y / 4); generalize dependent (y mod 4);
  generalize dependent (y / 100); generalize dependent (y mod 100);
  generalize dependent (y / 400); generalize dependent (y mod 400);
  generalize dependent ((y - 1) / 4); generalize dependent ((y - 1) mod 4);
  generalize dependent ((y - 1) / 100); generalize dependent ((y - 1) mod 100);
  generalize dependent ((y - 1) / 400); generalize dependent ((y - 1) mod 400);
  intros; lia.
Qed.

Lemma days_before_year_nonneg (y : Z) : 1 <= y -> 0 <= days_before_year y.
Proof.
  intro Hy. unfold days_before_year.
  pose proof (Z.div_pos (y - 1) 4 ltac:(lia) ltac:(lia)).
  pose proof (Z.div_pos (y - 1) 400 ltac:(lia) ltac:(lia)).
  pose proof (Z.div_le_upper_bound (y - 1) 100 (y - 1) ltac:(lia) ltac:(lia)).
  lia.
Qed.

Lemma days_before_month_nonneg (y m : Z) : 0 <= days_before_month y m.
Proof.
  unfold days_before_month.
  destruct ((2 <? m) && is_leap y);
    destruct m as [| p | p]; try lia; repeat (destruct p; try lia).
Qed.

Lemma toordinal_pos (d : datetime) : valid_datetime d = true -> 1 <= toordinal d.
Proof.
  intro Hv. apply valid_datetime_iff in Hv.
  pose proof (days_before_year_nonneg (year d) ltac:(lia)).
  pose proof (days_before_month_nonneg (year d) (month d)).
  unfold toordinal. lia.
Qed.

Lemma next_day_spec (d d' : datetime) :
  valid_datetime d = true -> next_day d = Some d' ->
  valid_datetime d' = true /\ toordinal d' = toordinal d + 1.
Proof.
  intros Hv Hn. apply valid_datetime_iff in Hv.
  destruct Hv as (Hy & Hm & Hd & Hh & Hmi & Hs & Hus).
  unfold next_day, MAXYEAR in Hn.
  destruct (Z.ltb_spec (day d) (days_in_month (year d) (month d))).
  - injection Hn as <-. split.
    + apply valid_datetime_iff. cbn. lia.
    + unfold toordinal. cbn. lia.
  - destruct (Z.ltb_spec (month d) 12).
    + injection Hn as <-.
      pose proof (days_in_month_range (year d) (month d + 1) ltac:(lia)).
      pose proof (days_before_month_step (year d) (month d) ltac:(lia)).
      split.
      * apply valid_datetime_iff. cbn. lia.
      * unfold toordinal. cbn. lia.
    + destruct (Z.ltb_spec (year d) 9999); [| discriminate].
      injection Hn as <-.
      assert (Hm12 : month d = 12) by lia.
      rewrite Hm12 in Hd, H. cbn in Hd, H.
      pose proof (days_before_year_step (year d)).
      split.
      * apply valid_datetime_iff. cbn. lia.
      * unfold toordinal. cbn. rewrite Hm12. unfold days_before_month. cbn.
        destruct (is_leap (year d)); lia.
Qed.

Lemma prev_day_spec (d d' : datetime) :
  valid_datetime d = true -> prev_day d = Some d' ->
  valid_datetime d' = true /\ toordinal d' = toordinal d - 1.
Proof.
  intros Hv Hn. apply valid_datetime_iff in Hv.
  destruct Hv as (Hy & Hm & Hd & Hh & Hmi & Hs & Hus).
  unfold prev_day, MINYEAR in Hn.
  destruct (Z.ltb_spec 1 (day d)).
  - injection Hn as <-. split.
    + apply valid_datetime_iff. cbn. lia.
    + unfold toordinal. cbn. lia.
  - destruct (Z.ltb_spec 1 (month d)).
    + injection Hn as <-.
      pose proof (days_in_month_range (year d) (month d - 1) ltac:(lia)).
      pose proof (days_before_month_step (year d) (month d - 1) ltac:(lia)) as Hs1.
      replace (month d - 1 + 1) with (month d) in Hs1 by lia.
      split.
      * apply valid_datetime_iff. cbn. lia.
      * unfold toordinal. cbn. lia.
    + destruct (Z.ltb_spec 1 (year d)); [| discriminate].
      injection Hn as <-.
      assert (Hm1 : month d = 1) by lia.
      pose proof (days_before_year_step (year d - 1)) as Hy1.
      replace (year d - 1 + 1) with (year d) in Hy1 by lia.
      split.
      * apply valid_datetime_iff. cbn. lia.
      * unfold toordinal. cbn. rewrite Hm1. unfold days_before_month. cbn.
        destruct (is_leap (year d - 1)); lia.
Qed.

Lemma next_day_none (d : datetime) :
  valid_datetime d = true -> next_day d = None -> toordinal d = MAXORDINAL.
Proof.
  intros Hv Hn. apply valid_datetime_iff in Hv.
  destruct Hv as (Hy & Hm & Hd & _).
  unfold next_day, MAXYEAR in Hn.
  destruct (Z.ltb_spec (day d) (days_in_month (year d) (month d))); [discriminate |].
  destruct (Z.ltb_spec (month d) 12); [discriminate |].
  destruct (Z.ltb_spec (year d) 9999); [discriminate |].
  assert (Ey : year d = 9999) by lia. assert (Em : month d = 12) by lia.
  unfold toordinal. rewrite Ey, Em in *. cbn in *.
  replace (day d) with 31 by lia. reflexivity.
Qed.

Lemma prev_day_none (d : datetime) :
  valid_datetime d = true -> prev_day d = None -> toordinal d = 1.
Proof.
  intros Hv Hn. apply valid_datetime_iff in Hv.
  destruct Hv as (Hy & Hm & Hd & _).
  unfold prev_day, MINYEAR in Hn.
  destruct (Z.ltb_spec 1 (day d)); [discriminate |].
  destruct (Z.ltb_spec 1 (month d)); [discriminate |].
  destruct (Z.ltb_spec 1 (year d)); [discriminate |].
  assert (Ey : year d = 1) by lia. assert (Em : month d = 1) by lia.
  unfold toordinal. rewrite Ey, Em.
  replace (day d) with 1 by lia. reflexivity.
Qed.

Lemma iter_next_ok (n : nat) (d : datetime) :
  valid_datetime d = true -> toordinal d + Z.of_nat n <= MAXORDINAL ->
  exists d', iter_days next_day n d = Some d' /\ valid_datetime d' = true /\
             toordinal d' = toordinal d + Z.of_nat n.
Proof.
  revert d. induction n as [| n IH]; intros d Hv Hb.
  - exists d. cbn. split; [reflexivity | split; [exact Hv | lia]].
  - cbn [iter_days]. destruct (next_day d) as [d1 |] eqn:E.
    + destruct (next_day_spec d d1 Hv E) as [Hv1 Ho1].
      destruct (IH d1 Hv1 ltac:(lia)) as [d' (H1 & H2 & H3)].
      exists d'. split; [exact H1 | split; [exact H2 | lia]].
    + pose proof (next_day_none d Hv E). lia.
Qed.

Lemma iter_prev_ok (n : nat) (d : datetime) :
  valid_datetime d = true -> 1 <= toordinal d - Z.of_nat n ->
  exists d', iter_days prev_day n d = Some d' /\ valid_datetime d' = true /\
             toordinal d' = toordinal d - Z.of_nat n.
Proof.
  revert d. induction n as [| n IH]; intros d Hv Hb.
  - exists d. cbn. split; [reflexivity | split; [exact Hv | lia]].
  - cbn [iter_days]. destruct (prev_day d) as [d1 |] eqn:E.
    + destruct (prev_day_spec d d1 Hv E) as [Hv1 Ho1].
      destruct (IH d1 Hv1 ltac:(lia)) as [d' (H1 & H2 & H3)].
      exists d'. split; [exact H1 | split; [exact H2 | lia]].
    + pose proof (prev_day_none d Hv E). lia.
Qed.

Lemma add_days_back (k : Z) (d : datetime) :
  valid_datetime d = true -> 0 <= k -> 1 <= toordinal d - k ->
  exists d', add_days (- k) d = Some d' /\ valid_datetime d' = true /\
             toordinal d' = toordinal d - k.
Proof.
  intros Hv Hk Hb. unfold add_days.
  destruct (Z.leb_spec 0 (- k)).
  - replace k with 0 by lia. exists d. cbn. split; [reflexivity | split; [exact Hv | lia]].
  - rewrite Z.opp_involutive.
    destruct (iter_prev_ok (Z.to_nat k) d Hv ltac:(lia)) as [d' (H1 & H2 & H3)].
    exists d'. split; [exact H1 | split; [exact H2 | lia]].
Qed.

Lemma add_days_forward (k : Z) (d : datetime) :
  valid_datetime d = true -> 0 <= k -> toordinal d + k <= MAXORDINAL ->
  exists d', add_days k d = Some d' /\ valid_datetime d' = true /\
             toordinal d' = toordinal d + k.
Proof.
  intros Hv Hk Hb. unfold add_days.
  destruct (Z.leb_spec 0 k); [| lia].
  destruct (iter_next_ok (Z.to_nat k) d Hv ltac:(lia)) as [d' (H1 & H2 & H3)].
  exists d'. split; [exact H1 | split; [exact H2 | lia]].
Qed.

Lemma dt_sub_days_date (d d' : datetime) (k : Z) :
  valid_datetime d = true -> add_days (- k) d = Some d' ->
  exists s0, dt_sub_days d k = Some s0 /\
             year s0 = year d' /\ month s0 = month d' /\ day s0 = day d'.
Proof.
  intros Hv Ha. apply valid_datetime_iff in Hv.
  destruct Hv as (_ & _ & _ & Hh & Hmi & Hs & Hus).
  unfold dt_sub_days, dt_add, td_of_days. cbn [td_days td_seconds td_microseconds].
  rewrite Z.mul_0_l, !Z.add_0_r.
  rewrite (Z.div_small (time_us d) US_PER_DAY) by (unfold time_us, US_PER_DAY; lia).
  rewrite Z.add_0_r, Ha.
  eexists. split; [reflexivity |]. cbn. repeat split.
Qed.

Lemma dt_add_last_instant (r e' : datetime) :
  hour r = 0 -> minute r = 0 -> second r = 0 -> microsecond r = 0 ->
  add_days 6 r = Some e' ->
  dt_add r (mkTD 6 86399 999999) = Some (mkDT (year e') (month e') (day e') 23 59 59 999999).
Proof.
  intros H1 H2 H3 H4 Ha. unfold dt_add, time_us.
  cbn [td_days td_seconds td_microseconds]. rewrite H1, H2, H3, H4.
  cbn -[add_days]. rewrite Ha. reflexivity.
Qed.

Lemma days_before_month_last (y m : Z) :
  1 <= m <= 12 ->
  days_before_month y m + days_in_month y m <= 365 + (if is_leap y then 1 else 0).
Proof.
  intro Hm.
  assert (m = 1 \/ m = 2 \/ m = 3 \/ m = 4 \/ m = 5 \/ m = 6 \/ m = 7 \/
          m = 8 \/ m = 9 \/ m = 10 \/ m = 11 \/ m = 12) as Hc by lia.
  unfold days_before_month, days_in_month.
  repeat destruct Hc as [-> | Hc]; try (subst m); cbn;
    destruct (is_leap y); cbn; lia.
Qed.

Lemma days_before_year_mono (a n : Z) :
  0 <= n -> days_before_year a <= days_before_year (a + n).
Proof.
  intro Hn. pattern n. apply natlike_ind; [| | exact Hn].
  - rewrite Z.add_0_r. lia.
  - intros x Hx IH. replace (a + Z.succ x) with (a + x + 1) by lia.
    rewrite days_before_year_step. destruct (is_leap (a + x)); lia.
Qed.

Lemma toordinal_le_max (d : datetime) :
  valid_datetime d = true -> toordinal d <= MAXORDINAL.
Proof.
  intro Hv. apply valid_datetime_iff in Hv. destruct Hv as (Hy & Hm & Hd & _).
  pose proof (days_before_month_last (year d) (month d) Hm).
  pose proof (days_before_year_step (year d)).
  pose proof (days_before_year_mono (year d + 1) (9999 - year d) ltac:(lia)) as Hmono.
  replace (year d + 1 + (9999 - year d)) with 10000 in Hmono by lia.
  change (days_before_year 10000) with 3652059 in Hmono.
  unfold toordinal, MAXORDINAL. destruct (is_leap (year d)); lia.
Qed.

Lemma iter_next_none (n : nat) (d : datetime) :
  valid_datetime d = true -> MAXORDINAL < toordinal d + Z.of_nat n ->
  iter_days next_day n d = None.
Proof.
  revert d. induction n as [| n IH]; intros d Hv Hb.
  - pose proof (toordinal_le_max d Hv). lia.
  - cbn [iter_days]. destruct (next_day d) as [d1 |] eqn:E; [| reflexivity].
    destruct (next_day_spec d d1 Hv E) as [Hv1 Ho1].
    apply IH; [exact Hv1 | lia].
Qed.

Lemma dt_add_last_instant_none (r : datetime) :
  hour r = 0 -> minute r = 0 -> second r = 0 -> microsecond r = 0 ->
  add_days 6 r = None ->
  dt_add r (mkTD 6 86399 999999) = None.
Proof.
  intros H1 H2 H3 H4 Ha. unfold dt_add, time_us.
  cbn [td_days td_seconds td_microseconds]. rewrite H1, H2, H3, H4.
  cbn -[add_days]. rewrite Ha. reflexivity.
Qed.

(** C5 (counterexample): for the reference date 9999-12-31 the weekly
    period's Sunday would fall in year 10000, and [get_weekly_period]
    raises [OverflowError]. *)
Lemma weekly_period_overflow :
  get_weekly_period (mkDT 9999 12 31 12 0 0 0) = None.
Proof. vm_compute. reflexivity. Qed.

(** C5 (amended): the monthly period runs from the first day of the
    reference month at 00:00:00.000000 to its last day (month lengths and
    leap years as [calendar.monthrange]) at 23:59:59.999999; for every
    reference date up to 9999-12-26 the weekly period runs from the
    Monday of its week at 00:00:00.000000 to the following Sunday at
    23:59:59.999999; the spec's two examples. *)
Theorem period_bounds (d : datetime) :
  (valid_datetime d = true ->
   get_monthly_period d =
     Some (mkDT (year d) (month d) 1 0 0 0 0,
           mkDT (year d) (month d) (days_in_month (year d) (month d)) 23 59 59 999999) /\
   valid_datetime (mkDT (year d) (month d) (days_in_month (year d) (month d))
                        23 59 59 999999) = true /\
   valid_datetime (mkDT (year d) (month d) (days_in_month (year d) (month d) + 1)
                        0 0 0 0) = false) /\
  (valid_datetime d = true -> toordinal d <= toordinal (mkDT 9999 12 26 0 0 0 0) ->
   exists s e, get_weekly_period d = Some (s, e) /\
     valid_datetime s = true /\ valid_datetime e = true /\
     weekday s = 0 /\ toordinal s <= toordinal d <= toordinal s + 6 /\
     hour s = 0 /\ minute s = 0 /\ second s = 0 /\ microsecond s = 0 /\
     toordinal e = toordinal s + 6 /\ weekday e = 6 /\
     hour e = 23 /\ minute e = 59 /\ second e = 59 /\ microsecond e = 999999) /\
  (valid_datetime d = true -> toordinal (mkDT 9999 12 27 0 0 0 0) <= toordinal d ->
   get_weekly_period d = None) /\
  get_monthly_period (mkDT 2024 2 15 0 0 0 0) =
    Some (mkDT 2024 2 1 0 0 0 0, mkDT 2024 2 29 23 59 59 999999) /\
  get_weekly_period (mkDT 2024 3 6 0 0 0 0) =
    Some (mkDT 2024 3 4 0 0 0 0, mkDT 2024 3 10 23 59 59 999999).
Proof.
  split; [| split; [| split; [| split]]].
  - intro Hv. pose proof Hv as Hv'. apply valid_datetime_iff in Hv'.
    destruct Hv' as (Hy & Hm & Hd & _).
    pose proof (days_in_month_range (year d) (month d) Hm).
    assert (Hs : valid_datetime (mkDT (year d) (month d) 1 0 0 0 0) = true)
      by (apply valid_datetime_iff; cbn; lia).
    assert (He : valid_datetime (mkDT (year d) (month d)
                   (days_in_month (year d) (month d)) 23 59 59 999999) = true)
      by (apply valid_datetime_iff; cbn; lia).
    split; [| split; [exact He |]].
    + unfold get_monthly_period, dt_replace. rewrite Hs, He. reflexivity.
    + apply not_true_iff_false. rewrite valid_datetime_iff. cbn. lia.
  - intros Hv Hb.
    change (toordinal (mkDT 9999 12 26 0 0 0 0)) with 3652054 in Hb.
    pose proof (toordinal_pos d Hv) as Hpos.
    set (x := toordinal d) in *.
    assert (Hwd : weekday d = (x + 6) mod 7) by reflexivity.
    pose proof (Z.div_mod (x + 6) 7 ltac:(lia)) as Hdm.
    pose proof (Z.mod_pos_bound (x + 6) 7 ltac:(lia)) as Hmb.
    set (q := (x + 6) / 7) in *. set (w := (x + 6) mod 7) in *.
    destruct (add_days_back w d Hv ltac:(lia) ltac:(lia)) as [d1 (Ha1 & Hv1 & Ho1)].
    destruct (dt_sub_days_date d d1 w Hv Ha1) as [s0 (Hs0 & Ey & Em & Ed)].
    set (s := mkDT (year s0) (month s0) (day s0) 0 0 0 0).
    assert (Hvs : valid_datetime s = true).
    { apply valid_datetime_iff in Hv1. apply valid_datetime_iff.
      unfold s. cbn. rewrite Ey, Em, Ed. lia. }
    assert (Hos : toordinal s = x - w).
    { unfold s, toordinal. cbn. rewrite Ey, Em, Ed. exact Ho1. }
    destruct (add_days_forward 6 s Hvs ltac:(lia) ltac:(unfold MAXORDINAL; lia))
      as [e1 (Ha2 & Hv2 & Ho2)].
    set (e := mkDT (year e1) (month e1) (day e1) 23 59 59 999999).
    assert (Hve : valid_datetime e = true).
    { apply valid_datetime_iff in Hv2. apply valid_datetime_iff. unfold e. cbn. lia. }
    assert (Hoe : toordinal e = toordinal e1) by reflexivity.
    exists s, e. split.
    + unfold get_weekly_period. rewrite Hwd. fold w. rewrite Hs0.
      unfold dt_replace at 1. fold s. rewrite Hvs.
      rewrite (dt_add_last_instant s e1 eq_refl eq_refl eq_refl eq_refl Ha2). reflexivity.
    + split; [exact Hvs |]. split; [exact Hve |]. split.
      * unfold weekday. rewrite Hos.
        replace (x - w + 6) with (q * 7) by lia. apply Z.mod_mul. lia.
      * split; [lia |]. split; [reflexivity |]. split; [reflexivity |].
        split; [reflexivity |]. split; [reflexivity |]. split; [lia |]. split.
        -- unfold weekday. rewrite Hoe, Ho2, Hos.
           replace (x - w + 6 + 6) with (6 + q * 7) by lia.
           rewrite Z.mod_add by lia. reflexivity.
        -- repeat split.
  - intros Hv Hb.
    change (toordinal (mkDT 9999 12 27 0 0 0 0)) with 3652055 in Hb.
    pose proof (toordinal_pos d Hv) as Hpos.
    set (x := toordinal d) in *.
    assert (Hwd : weekday d = (x + 6) mod 7) by reflexivity.
    pose proof (Z.div_mod (x + 6) 7 ltac:(lia)) as Hdm.
    pose proof (Z.mod_pos_bound (x + 6) 7 ltac:(lia)) as Hmb.
    set (q := (x + 6) / 7) in *. set (w := (x + 6) mod 7) in *.
    destruct (add_days_back w d Hv ltac:(lia) ltac:(lia)) as [d1 (Ha1 & Hv1 & Ho1)].
    destruct (dt_sub_days_date d d1 w Hv Ha1) as [s0 (Hs0 & Ey & Em & Ed)].
    set (s := mkDT (year s0) (month s0) (day s0) 0 0 0 0).
    assert (Hvs : valid_datetime s = true).
    { apply valid_datetime_iff in Hv1. apply valid_datetime_iff.
      unfold s. cbn. rewrite Ey, Em, Ed. lia. }
    assert (Hos : toordinal s = x - w).
    { unfold s, toordinal. cbn. rewrite Ey, Em, Ed. exact Ho1. }
    unfold get_weekly_period. rewrite Hwd. fold w. rewrite Hs0.
    unfold dt_replace at 1. fold s. rewrite Hvs.
    rewrite (dt_add_last_instant_none s eq_refl eq_refl eq_refl eq_refl); [reflexivity |].
    unfold add_days. cbn -[iter_days].
    apply (iter_next_none 6 s Hvs). unfold MAXORDINAL. cbn [Z.of_nat Pos.of_succ_nat].
    lia.
  - vm_compute. reflexivity.
  - vm_compute. reflexivity.
Qed.

(** Witness of C5: the reference date 2024-03-06 at noon. *)
Lemma period_bounds_witness :
  exists s e, get_weekly_period (mkDT 2024 3 6 12 30 0 0) = Some (s, e) /\ weekday s = 0.
Proof.
  destruct (proj1 (proj2 (period_bounds (mkDT 2024 3 6 12 30 0 0)))
              eq_refl ltac:(vm_compute; discriminate))
    as [s [e (H & _ & _ & Hw & _)]].
  exists s, e. split; assumption.
Defined.

End PeriodFacts.

(* ------------------------------------------------------------------ *)
(** ** Ledger merge *)

Module LedgerFacts.
Import PyDict Ledger DictFacts.

Local Open Scope string_scope.

Lemma source_of_stamp (tag : string) (r : Row) : source_of (stamp tag r) = Some tag.
Proof. apply lookup_set_same. Qed.

Lemma Forall_stamp (tag : string) (rows : DataFrame) :
  Forall (fun r => source_of r = Some tag) (map (stamp tag) rows).
Proof.
  induction rows as [| r t IH]; cbn; constructor; [apply source_of_stamp | exact IH].
Qed.

(** What one [try] block contributes to the concatenation. *)
Lemma partition_contribution (secrets : option (dict string))
    (read : string -> option DataFrame) (owner data_type tag ws : string) :
  lookup data_type (get_worksheet_names secrets owner) = Some ws ->
  List.concat (opt_list (load_partition secrets read owner data_type tag)) =
  match read ws with Some rows => map (stamp tag) rows | None => [] end.
Proof.
  intro Hws. unfold load_partition. rewrite Hws.
  destruct (read ws) as [[| r t] |]; cbn; [reflexivity | rewrite app_nil_r; reflexivity
                                          | reflexivity].
Qed.

(** C6: each partition that cannot be read contributes nothing, the
    readable ones are concatenated, personal rows first, each row stamped
    with the tag of its partition; in particular an unreadable personal
    sheet and a shared sheet of n rows give exactly those n rows, tagged
    "shared". *)
Theorem merge_failure_isolation (secrets : option (dict string))
    (read : string -> option DataFrame) (user_id data_type wsu wss : string) :
  lookup data_type (get_worksheet_names secrets user_id) = Some wsu ->
  lookup data_type (get_worksheet_names secrets "shared") = Some wss ->
  (exists l1 l2 : DataFrame,
     get_user_and_shared_data secrets read user_id data_type = (l1 ++ l2)%list /\
     (read wsu = None -> l1 = []) /\
     (forall rows, read wsu = Some rows -> l1 = map (stamp "personal") rows) /\
     (read wss = None -> l2 = []) /\
     (forall rows, read wss = Some rows -> l2 = map (stamp "shared") rows) /\
     Forall (fun r => source_of r = Some "personal") l1 /\
     Forall (fun r => source_of r = Some "shared") l2) /\
  (forall rows, read wsu = None -> read wss = Some rows ->
     get_user_and_shared_data secrets read user_id data_type = map (stamp "shared") rows /\
     List.length (get_user_and_shared_data secrets read user_id data_type) = List.length rows /\
     Forall (fun r => source_of r = Some "shared")
            (get_user_and_shared_data secrets read user_id data_type)).
Proof.
  intros Hu Hs.
  assert (Hsplit : get_user_and_shared_data secrets read user_id data_type =
    ((match read wsu with Some rows => map (stamp "personal") rows | None => [] end) ++
     (match read wss with Some rows => map (stamp "shared") rows | None => [] end))%list).
  { unfold get_user_and_shared_data. rewrite concat_app.
    rewrite (partition_contribution secrets read user_id data_type "personal" wsu Hu).
    rewrite (partition_contribution secrets read "shared" data_type "shared" wss Hs).
    reflexivity. }
  split.
  - eexists. eexists. split; [exact Hsplit |].
    repeat split.
    + intros ->. reflexivity.
    + intros rows ->. reflexivity.
    + intros ->. reflexivity.
    + intros rows ->. reflexivity.
    + destruct (read wsu); [apply Forall_stamp | constructor].
    + destruct (read wss); [apply Forall_stamp | constructor].
  - intros rows Hn Hr. rewrite Hsplit, Hn, Hr. cbn.
    split; [reflexivity |]. split; [apply length_map | apply Forall_stamp].
Qed.

(** Witness of C6: "user1" with a missing personal sheet. *)
Lemma merge_failure_isolation_witness :
  get_user_and_shared_data None read_shared_only "user1" "expenses" =
  map (stamp "shared") shared_rows.
Proof.
  destruct (merge_failure_isolation None read_shared_only "user1" "expenses"
              "expenses_taras" "expenses_shared" eq_refl eq_refl) as [_ H].
  exact (proj1 (H shared_rows eq_refl eq_refl)).
Defined.

End LedgerFacts.

(* ------------------------------------------------------------------ *)
(** ** Keyword, store and category maintenance *)

Module ConfigExtraFacts.
Import PyDict Config DictFacts.

Lemma ascii_lower_idem (c : ascii) : ascii_lower (ascii_lower c) = ascii_lower c.
Proof. destruct c as [[] [] [] [] [] [] [] []]; reflexivity. Qed.

Lemma ascii_str_lower_idem (s : string) :
  ascii_str_lower (ascii_str_lower s) = ascii_str_lower s.
Proof. induction s as [|c t IH]; cbn; [reflexivity | rewrite ascii_lower_idem, IH; reflexivity]. Qed.

Lemma In_py_sort (x : string) (l : list string) : In x (py_sort l) <-> In x l.
Proof.
  rewrite (count_occ_In string_dec (py_sort l) x), (count_occ_In string_dec l x).
  rewrite count_py_sort. reflexivity.
Qed.

Lemma Permutation_py_sort (l : list string) : Permutation (py_sort l) l.
Proof. apply (Permutation_count_occ string_dec). intro x. apply count_py_sort. Qed.

Lemma lookup_del_same {V} (k : string) (d : dict V) : lookup k (del k d) = None.
Proof.
  unfold del. induction d as [|[k' v'] t IH]; cbn; [reflexivity |].
  destruct (String.eqb k k') eqn:E; cbn; [exact IH | rewrite E; exact IH].
Qed.

Lemma del_set_absent {V} (k : string) (v : V) (d : dict V) :
  lookup k d = None -> del k (set k v d) = d.
Proof.
  unfold del. induction d as [|[k' v'] t IH]; cbn; intro Hk.
  - rewrite String.eqb_refl. reflexivity.
  - destruct (String.eqb k k') eqn:E; [discriminate |]. cbn. rewrite E. cbn.
    f_equal. exact (IH Hk).
Qed.

Lemma keys_set_found {V} (k : string) (v w : V) (d : dict V) :
  lookup k d = Some w -> keys (set k v d) = keys d.
Proof.
  induction d as [|[k' v'] t IH]; cbn; intro Hk; [discriminate |].
  destruct (String.eqb k k'); cbn; [reflexivity | f_equal; exact (IH Hk)].
Qed.

Lemma count_remove_first (x y : string) (l : list string) :
  count_occ string_dec (remove_first y l) x =
  if string_dec y x then pred (count_occ string_dec l x) else count_occ string_dec l x.
Proof.
  induction l as [|a t IH]; cbn.
  - destruct (string_dec y x); reflexivity.
  - destruct (String.eqb_spec y a) as [-> | Hne].
    + destruct (string_dec a x); reflexivity.
    + cbn. rewrite IH. destruct (string_dec a x), (string_dec y x); subst; try congruence; reflexivity.
Qed.

Lemma first_ci_found (lower : string -> string) (kwl : string) (l : list string) (k : string) :
  first_ci lower kwl l = Some k ->
  exists pre post, l = pre ++ k :: post /\ lower k = kwl /\
                   Forall (fun x => lower x <> kwl) pre.
Proof.
  induction l as [|a t IH]; cbn; intro H; [discriminate |].
  destruct (String.eqb_spec (lower a) kwl) as [Ha | Ha].
  - injection H as <-. exists [], t. repeat split; [exact Ha | constructor].
  - destruct (IH H) as (pre & post & -> & Hk & Hpre).
    exists (a :: pre), post. repeat split; [exact Hk | constructor; assumption].
Qed.

Lemma first_ci_some (lower : string -> string) (kwl : string) (l : list string) :
  py_in kwl (map lower l) = true -> exists k, first_ci lower kwl l = Some k.
Proof.
  induction l as [|a t IH]; cbn; intro H; [discriminate |].
  unfold py_in in H. cbn in H. rewrite String.eqb_sym in H.
  destruct (String.eqb (lower a) kwl); [eexists; reflexivity | exact (IH H)].
Qed.

Lemma remove_first_app (k : string) (pre post : list string) :
  Forall (fun x => x <> k) pre -> remove_first k (pre ++ k :: post) = pre ++ post.
Proof.
  induction 1 as [| a pre Ha _ IH]; cbn; [rewrite String.eqb_refl; reflexivity |].
  destruct (String.eqb_spec k a) as [-> | _]; [congruence | f_equal; exact IH].
Qed.

Lemma insert_sorted_sorted (x : string) (l : list string) :
  Sorted (fun a b => String.leb a b = true) l ->
  Sorted (fun a b => String.leb a b = true) (insert_sorted x l).
Proof.
  induction l as [|a t IH]; cbn; intro Hs; [repeat constructor |].
  destruct (String.leb x a) eqn:E; [constructor; [exact Hs | constructor; exact E] |].
  apply Sorted_inv in Hs. destruct Hs as [Ht Hh].
  assert (Hax : String.leb a x = true)
    by (destruct (String.leb_total x a) as [H | H]; [congruence | exact H]).
  constructor; [exact (IH Ht) |].
  destruct t as [|b t']; cbn; [constructor; exact Hax |].
  destruct (String.leb x b); constructor; [exact Hax |].
  inversion Hh; assumption.
Qed.

Lemma py_sort_sorted (l : list string) :
  Sorted (fun a b => String.leb a b = true) (py_sort l).
Proof. induction l as [|a t IH]; cbn; [constructor | apply insert_sorted_sorted, IH]. Qed.

(** X1: [add_keyword_to_category] stores the keyword lower-cased, and
    once it has run, adding any case variant of the same keyword to the
    same category returns [False] and changes nothing. *)
Theorem add_keyword_case_insensitive (lower : string -> string) (c c1 : Config)
    (category kw kw' : string) (b : bool) (data : CategoryRule) :
  (forall s, lower (lower s) = lower s) ->
  lookup category (categories c) = Some data ->
  lower kw' = lower kw ->
  add_keyword_to_category lower c category kw = (b, c1) ->
  (b = true -> In (lower kw) (get_keywords_for_category c1 category)) /\
  add_keyword_to_category lower c1 category kw' = (false, c1).
Proof.
  intros Hidem Hl Hk Hadd. unfold add_keyword_to_category in Hadd |- *. rewrite Hl in Hadd.
  rewrite Hk.
  destruct (py_in (lower kw) (map lower (keywords data))) eqn:Ein; cbn in Hadd.
  - injection Hadd as <- <-. split; [discriminate |]. rewrite Hl, Ein. reflexivity.
  - injection Hadd as <- <-.
    unfold get_keywords_for_category, with_categories. cbn [categories].
    rewrite lookup_set_same. cbn [keywords].
    assert (Hin : In (lower kw) (py_sort (keywords data ++ [lower kw])))
      by (apply In_py_sort, in_or_app; right; left; reflexivity).
    split; [intros _; exact Hin |].
    assert (Hp : py_in (lower kw)
                   (map lower (py_sort (keywords data ++ [lower kw]))) = true).
    { apply py_in_iff, in_map_iff. exists (lower kw).
      split; [apply Hidem | exact Hin]. }
    rewrite Hp. reflexivity.
Qed.

(** X2: a successful [remove_keyword_from_category] removes exactly one
    keyword: the first one equal to the argument up to case; the keywords
    before it differ from the argument up to case and the order of the
    rest is kept. *)
Theorem remove_keyword_first_match (lower : string -> string) (c c1 : Config)
    (category kw : string) (data : CategoryRule) :
  lookup category (categories c) = Some data ->
  remove_keyword_from_category lower c category kw = (true, c1) ->
  exists pre k post,
    keywords data = pre ++ k :: post /\ lower k = lower kw /\
    Forall (fun x => lower x <> lower kw) pre /\
    get_keywords_for_category c1 category = pre ++ post.
Proof.
  intros Hl Hr. unfold remove_keyword_from_category in Hr. rewrite Hl in Hr.
  destruct (py_in (lower kw) (map lower (keywords data))) eqn:Ein; [| discriminate].
  destruct (first_ci_some _ _ _ Ein) as [k Hk]. rewrite Hk in Hr.
  injection Hr as <-.
  destruct (first_ci_found _ _ _ _ Hk) as (pre & post & Heq & Hlow & Hpre).
  exists pre, k, post. repeat split; try assumption.
  unfold get_keywords_for_category, with_categories. cbn [categories].
  rewrite lookup_set_same. cbn [keywords]. rewrite Heq.
  apply remove_first_app.
  eapply Forall_impl; [| exact Hpre]. cbn. intros x Hx Hxk. subst x. congruence.
Qed.

(** X3: adding a keyword the category does not hold (up to case) and
    then removing it, in any case, both return [True], and the category's
    keywords afterwards are the original ones up to order. *)
Theorem keyword_add_remove_roundtrip (lower : string -> string) (c : Config)
    (category kw kw' : string) (data : CategoryRule) :
  (forall s, lower (lower s) = lower s) ->
  lookup category (categories c) = Some data ->
  Forall (fun k => lower k <> lower kw) (keywords data) ->
  lower kw' = lower kw ->
  exists c1 c2,
    add_keyword_to_category lower c category kw = (true, c1) /\
    remove_keyword_from_category lower c1 category kw' = (true, c2) /\
    Permutation (get_keywords_for_category c2 category) (keywords data).
Proof.
  intros Hidem Hl Hnone Hk.
  assert (Ein : py_in (lower kw) (map lower (keywords data)) = false).
  { destruct (py_in _ _) eqn:E; [| reflexivity].
    apply py_in_iff, in_map_iff in E. destruct E as [x [Hx Hin]].
    rewrite Forall_forall in Hnone. exfalso. exact (Hnone x Hin Hx). }
  set (L := py_sort (keywords data ++ [lower kw])).
  set (c1 := with_categories c (set category (mkRule (stores data) L) (categories c))).
  assert (Hadd : add_keyword_to_category lower c category kw = (true, c1))
    by (unfold add_keyword_to_category; rewrite Hl, Ein; reflexivity).
  assert (Hl1 : lookup category (categories c1) = Some (mkRule (stores data) L))
    by (apply lookup_set_same).
  assert (HinL : In (lower kw) L)
    by (apply In_py_sort, in_or_app; right; left; reflexivity).
  assert (Ein1 : py_in (lower kw') (map lower L) = true).
  { rewrite Hk. apply py_in_iff, in_map_iff. exists (lower kw).
    split; [apply Hidem | exact HinL]. }
  destruct (first_ci_some _ _ _ Ein1) as [k Hfk].
  destruct (first_ci_found _ _ _ _ Hfk) as (pre & post & HL & Hlow & _).
  assert (Hkk : k = lower kw).
  { assert (Hk' : In k L) by (rewrite HL; apply in_or_app; right; left; reflexivity).
    apply In_py_sort, in_app_or in Hk'. destruct Hk' as [Hk' | [Hk' | []]]; [| exact (eq_sym Hk')].
    rewrite Forall_forall in Hnone. exfalso. apply (Hnone k Hk'). congruence. }
  exists c1, (with_categories c1 (set category (mkRule (stores data) (remove_first k L))
                                      (categories c1))).
  split; [exact Hadd | split].
  - unfold remove_keyword_from_category. rewrite Hl1. cbn [keywords stores].
    rewrite Ein1, Hfk. reflexivity.
  - unfold get_keywords_for_category, with_categories. cbn [categories].
    rewrite lookup_set_same. cbn [keywords].
    apply (Permutation_count_occ string_dec). intro x.
    rewrite count_remove_first. unfold L. rewrite count_py_sort, count_occ_app. cbn.
    subst k. destruct (string_dec (lower kw) x); lia.
Qed.

(** X4: adding a store a category does not list and then removing it
    both return [True]; the category's stores afterwards are the original
    ones up to order, and the category list is unchanged. *)
Theorem store_add_remove_roundtrip (c : Config) (category store : string)
    (data : CategoryRule) :
  lookup category (categories c) = Some data ->
  ~ In store (stores data) ->
  exists c1 c2,
    add_store_to_category c category store = (true, c1) /\
    remove_store_from_category c1 category store = (true, c2) /\
    Permutation (get_stores_for_category c2 category) (stores data) /\
    get_categories c2 = get_categories c.
Proof.
  intros Hl Hnin.
  assert (Ein : py_in store (stores data) = false).
  { destruct (py_in store (stores data)) eqn:E; [| reflexivity].
    apply py_in_iff in E. contradiction. }
  set (L := py_sort (stores data ++ [store])).
  set (c1 := with_categories c (set category (mkRule L (keywords data)) (categories c))).
  assert (Hadd : add_store_to_category c category store = (true, c1))
    by (unfold add_store_to_category; rewrite Hl, Ein; reflexivity).
  assert (Hl1 : lookup category (categories c1) = Some (mkRule L (keywords data)))
    by (apply lookup_set_same).
  assert (Ein1 : py_in store L = true)
    by (apply py_in_iff, In_py_sort, in_or_app; right; left; reflexivity).
  exists c1, (with_categories c1 (set category (mkRule (remove_first store L) (keywords data))
                                      (categories c1))).
  split; [exact Hadd | split; [| split]].
  - unfold remove_store_from_category. rewrite Hl1. cbn [keywords stores].
    rewrite Ein1. reflexivity.
  - unfold get_stores_for_category, with_categories. cbn [categories].
    rewrite lookup_set_same. cbn [stores].
    apply (Permutation_count_occ string_dec). intro x.
    rewrite count_remove_first. unfold L. rewrite count_py_sort, count_occ_app. cbn.
    destruct (string_dec store x); lia.
  - unfold get_categories, with_categories. cbn [categories].
    rewrite (keys_set_found _ _ _ _ Hl1). apply (keys_set_found _ _ _ _ Hl).
Qed.

(** X5: after a successful [add_store_to_category] the category's store
    list is sorted (code-point order), whatever its order before. *)
Theorem add_store_sorted (c c1 : Config) (category store : string) :
  add_store_to_category c category store = (true, c1) ->
  Sorted (fun a b => String.leb a b = true) (get_stores_for_category c1 category).
Proof.
  unfold add_store_to_category. destruct (lookup category (categories c)) as [data |] eqn:Hl;
    [| discriminate].
  destruct (negb (py_in store (stores data))); [| discriminate].
  intro H. injection H as <-.
  unfold get_stores_for_category, with_categories. cbn [categories].
  rewrite lookup_set_same. apply py_sort_sorted.
Qed.

(** X6: [get_all_stores] lists exactly the stores of all categories,
    each once, in sorted order. *)
Theorem get_all_stores_spec (c : Config) :
  (forall x, In x (get_all_stores c) <->
             exists cat, In cat (get_categories c) /\ In x (get_stores_for_category c cat)) /\
  NoDup (get_all_stores c) /\
  Sorted (fun a b => String.leb a b = true) (get_all_stores c).
Proof.
  unfold get_all_stores. split; [| split].
  - intro x. rewrite In_py_sort, nodup_In, in_concat. split.
    + intros [l [Hl Hx]]. apply in_map_iff in Hl. destruct Hl as [cat [<- Hcat]].
      exists cat. split; assumption.
    + intros [cat [Hcat Hx]]. exists (get_stores_for_category c cat).
      split; [apply in_map; exact Hcat | exact Hx].
  - apply (NoDup_count_occ string_dec). intro x. rewrite count_py_sort.
    apply (NoDup_count_occ string_dec). apply NoDup_nodup.
  - apply py_sort_sorted.
Qed.

(** X7: [update_settings(default_category=dc, auto_categorize=False)]
    returns [True], keeps the categories, sets the default category when
    one is given, and from then on [auto_categorize_store] returns the
    default category for every store name. *)
Theorem disable_auto_categorize (lower : string -> string) (c : Config)
    (dc : option string) :
  fst (update_settings c dc (Some false)) = true /\
  categories (snd (update_settings c dc (Some false))) = categories c /\
  get_default_category (snd (update_settings c dc (Some false))) =
    match dc with Some d => d | None => get_default_category c end /\
  forall store_name,
    auto_categorize_store lower (snd (update_settings c dc (Some false))) store_name =
    get_default_category (snd (update_settings c dc (Some false))).
Proof.
  split; [reflexivity | split; [reflexivity | split]].
  - destruct dc; reflexivity.
  - intro store_name. reflexivity.
Qed.

(** X8: after a successful [rename_category] the default category
    follows the rename: a default equal to the old name becomes the new
    name, any other explicit default is kept. *)
Theorem rename_default_follows (c c1 : Config) (old_name new_name d : string) :
  default_category (settings c) = Some d ->
  rename_category c old_name new_name = (true, c1) ->
  get_default_category c1 = if String.eqb d old_name then new_name else d.
Proof.
  intros Hd. unfold rename_category.
  destruct (mem old_name (categories c) && negb (mem new_name (categories c))); [| discriminate].
  destruct (lookup old_name (categories c)); [| discriminate].
  intro H. injection H as <-. unfold get_default_category. cbn [settings].
  rewrite Hd. destruct (String.eqb d old_name); cbn; [reflexivity |]. rewrite Hd. reflexivity.
Qed.

(** X9: when the settings hold no [default_category] (so the default is
    ["Other"]), renaming the category ["Other"] succeeds but leaves the
    default at ["Other"], a category that no longer exists. *)
Theorem rename_other_keeps_missing_default (c c1 : Config) (new_name : string) :
  default_category (settings c) = None ->
  rename_category c "Other" new_name = (true, c1) ->
  get_default_category c1 = "Other"%string /\ mem "Other" (categories c1) = false.
Proof.
  intros Hd. unfold rename_category.
  destruct (mem "Other" (categories c) && negb (mem new_name (categories c))); [| discriminate].
  destruct (lookup "Other" (categories c)); [| discriminate].
  intro H. injection H as <-. rewrite Hd. split.
  - unfold get_default_category. cbn [settings]. rewrite Hd. reflexivity.
  - cbn [categories]. apply mem_lookup_none, lookup_del_same.
Qed.

(** X10: adding a new category and removing it again both return [True]
    and give back the configuration as it was. *)
Theorem category_add_remove_roundtrip (c : Config) (name : string) :
  mem name (categories c) = false ->
  fst (add_category c name) = true /\
  remove_category (snd (add_category c name)) name = (true, c).
Proof.
  intro Hm. unfold add_category. rewrite Hm. cbn. split; [reflexivity |].
  unfold remove_category, with_categories. cbn [categories].
  rewrite (mem_lookup _ _ _ (lookup_set_same name (mkRule [] []) (categories c))).
  rewrite del_set_absent.
  - destruct c; reflexivity.
  - unfold mem in Hm. destruct (lookup name (categories c)); [discriminate | reflexivity].
Qed.

Lemma add_keyword_case_insensitive_witness :
  (fst (add_keyword_to_category ascii_str_lower default_config "Food" "Bakery") = true ->
   In (ascii_str_lower "Bakery")
      (get_keywords_for_category
         (snd (add_keyword_to_category ascii_str_lower default_config "Food" "Bakery")) "Food")) /\
  add_keyword_to_category ascii_str_lower (snd (add_keyword_to_category ascii_str_lower default_config "Food" "Bakery"))
    "Food" "BAKERY" =
  (false, snd (add_keyword_to_category ascii_str_lower default_config "Food" "Bakery")).
Proof.
  apply (add_keyword_case_insensitive ascii_str_lower default_config
           (snd (add_keyword_to_category ascii_str_lower default_config "Food" "Bakery"))
           "Food" "Bakery" "BAKERY"
           (fst (add_keyword_to_category ascii_str_lower default_config "Food" "Bakery"))
           (mkRule ["Supermarket"; "Restaurant"; "Café"]%string
                   ["food"; "restaurant"; "cafe"]%string));
    first [exact ascii_str_lower_idem | reflexivity].
Defined.

Lemma remove_keyword_first_match_witness :
  remove_keyword_from_category ascii_str_lower default_config "Food" "RESTAURANT" =
    (true, snd (remove_keyword_from_category ascii_str_lower default_config "Food" "RESTAURANT")) /\
  exists pre k post,
    ["food"; "restaurant"; "cafe"]%string = pre ++ k :: post /\
    ascii_str_lower k = ascii_str_lower "RESTAURANT" /\
    Forall (fun x => ascii_str_lower x <> ascii_str_lower "RESTAURANT") pre /\
    get_keywords_for_category
      (snd (remove_keyword_from_category ascii_str_lower default_config "Food" "RESTAURANT")) "Food" =
    pre ++ post.
Proof.
  split; [reflexivity |].
  apply (remove_keyword_first_match ascii_str_lower default_config
           (snd (remove_keyword_from_category ascii_str_lower default_config "Food" "RESTAURANT"))
           "Food" "RESTAURANT"
           (mkRule ["Supermarket"; "Restaurant"; "Café"]%string
                   ["food"; "restaurant"; "cafe"]%string));
    reflexivity.
Defined.

Lemma keyword_add_remove_roundtrip_witness :
  Forall (fun k => ascii_str_lower k <> ascii_str_lower "Bakery") ["food"; "restaurant"; "cafe"]%string /\
  exists c1 c2,
    add_keyword_to_category ascii_str_lower default_config "Food" "Bakery" = (true, c1) /\
    remove_keyword_from_category ascii_str_lower c1 "Food" "bakery" = (true, c2) /\
    Permutation (get_keywords_for_category c2 "Food") ["food"; "restaurant"; "cafe"]%string.
Proof.
  assert (Hn : Forall (fun k => ascii_str_lower k <> ascii_str_lower "Bakery")
                      ["food"; "restaurant"; "cafe"]%string)
    by (repeat constructor; apply String.eqb_neq; reflexivity).
  split; [exact Hn |].
  apply (keyword_add_remove_roundtrip ascii_str_lower default_config "Food" "Bakery" "bakery"
           (mkRule ["Supermarket"; "Restaurant"; "Café"]%string
                   ["food"; "restaurant"; "cafe"]%string));
    [exact ascii_str_lower_idem | reflexivity | exact Hn | reflexivity].
Defined.

Lemma store_add_remove_roundtrip_witness :
  exists c1 c2,
    add_store_to_category default_config "Food" "Bakery" = (true, c1) /\
    remove_store_from_category c1 "Food" "Bakery" = (true, c2) /\
    Permutation (get_stores_for_category c2 "Food")
                ["Supermarket"; "Restaurant"; "Café"]%string /\
    get_categories c2 = get_categories default_config.
Proof.
  apply (store_add_remove_roundtrip default_config "Food" "Bakery"
           (mkRule ["Supermarket"; "Restaurant"; "Café"]%string
                   ["food"; "restaurant"; "cafe"]%string));
    [reflexivity | cbn; intuition discriminate].
Defined.

Lemma add_store_sorted_witness :
  fst (add_store_to_category default_config "Food" "Bakery") = true /\
  Sorted (fun a b => String.leb a b = true)
    (get_stores_for_category (snd (add_store_to_category default_config "Food" "Bakery"))
                             "Food").
Proof.
  split; [reflexivity |].
  apply (add_store_sorted default_config
           (snd (add_store_to_category default_config "Food" "Bakery")) "Food" "Bakery").
  reflexivity.
Defined.

Lemma rename_default_follows_witness :
  get_default_category (snd (rename_category default_config "Other" "Misc")) =
  (if String.eqb "Other" "Other" then "Misc" else "Other")%string.
Proof.
  apply (rename_default_follows default_config
           (snd (rename_category default_config "Other" "Misc")) "Other" "Misc" "Other");
    reflexivity.
Defined.

Lemma rename_other_keeps_missing_default_witness :
  fst (rename_category (mkConfig (mkSettings None (Some true))
                                 [("Other"%string, mkRule [] [])]) "Other" "Misc") = true /\
  get_default_category
    (snd (rename_category (mkConfig (mkSettings None (Some true))
                                    [("Other"%string, mkRule [] [])]) "Other" "Misc")) =
    "Other"%string /\
  mem "Other"
    (categories (snd (rename_category (mkConfig (mkSettings None (Some true))
                                                [("Other"%string, mkRule [] [])])
                                      "Other" "Misc"))) = false.
Proof.
  split; [reflexivity |].
  apply (rename_other_keeps_missing_default
           (mkConfig (mkSettings None (Some true)) [("Other"%string, mkRule [] [])])
           (snd (rename_category (mkConfig (mkSettings None (Some true))
                                           [("Other"%string, mkRule [] [])]) "Other" "Misc"))
           "Misc");
    reflexivity.
Defined.

Lemma category_add_remove_roundtrip_witness :
  fst (add_category default_config "Travel") = true /\
  remove_category (snd (add_category default_config "Travel")) "Travel" =
  (true, default_config).
Proof. apply category_add_remove_roundtrip. reflexivity. Defined.

End ConfigExtraFacts.

(* ------------------------------------------------------------------ *)
(** ** Budget maintenance and status *)

Module BudgetExtraFacts.
Import PyDict Budget DictFacts ConfigExtraFacts.

Local Open Scope Q_scope.

(** X11: after [set_budget], [calculate_budget_status] reports a budget
    of the given amount and period for that category, and the status of
    every other category is unchanged. *)
Theorem set_budget_status (b : option (dict BudgetDef)) (s : BudgetSettings)
    (category : string) (amt : Q) (p sd : string) (act : bool) (spent_amount : Q) :
  let b1 := snd (set_budget b category amt p sd act) in
  fst (set_budget b category amt p sd act) = true /\
  has_budget (calculate_budget_status (get_budgets b1) s category spent_amount) = true /\
  budget (calculate_budget_status (get_budgets b1) s category spent_amount) = amt /\
  status_period (calculate_budget_status (get_budgets b1) s category spent_amount) = Some p /\
  (forall other x, other <> category ->
     calculate_budget_status (get_budgets b1) s other x =
     calculate_budget_status (get_budgets b) s other x).
Proof.
  cbv zeta. unfold set_budget. cbn [fst snd get_budgets].
  unfold calculate_budget_status. rewrite lookup_set_same. cbn [amount period].
  split; [reflexivity | split; [reflexivity | split; [reflexivity | split; [reflexivity |]]]].
  intros other x Hne. rewrite (lookup_set_new_other _ _ _ _ Hne). reflexivity.
Qed.

(** X12: after [delete_budget] the category has no budget; the returned
    boolean tells whether it had one. *)
Theorem delete_budget_removes (b : option (dict BudgetDef)) (s : BudgetSettings)
    (category : string) (x : Q) :
  fst (delete_budget b category) = mem category (get_budgets b) /\
  has_budget (calculate_budget_status (get_budgets (snd (delete_budget b category)))
                                      s category x) = false.
Proof.
  destruct b as [d |]; cbn [delete_budget get_budgets]; [| split; reflexivity].
  destruct (mem category d) eqn:E; cbn [fst snd get_budgets]; split; try reflexivity.
  - unfold calculate_budget_status. rewrite lookup_del_same. reflexivity.
  - unfold calculate_budget_status, mem in *.
    destruct (lookup category d); [discriminate | reflexivity].
Qed.

(** X13: setting a budget for a category that has none and deleting it
    again both succeed and give back the budgets as they were. *)
Theorem budget_set_delete_roundtrip (b : option (dict BudgetDef)) (category : string)
    (amt : Q) (p sd : string) (act : bool) :
  mem category (get_budgets b) = false ->
  fst (set_budget b category amt p sd act) = true /\
  delete_budget (snd (set_budget b category amt p sd act)) category =
  (true, Some (get_budgets b)).
Proof.
  intro Hm. split; [reflexivity |]. unfold set_budget, delete_budget. cbn [snd].
  rewrite (mem_lookup _ _ _ (lookup_set_same category (mkBudget amt p sd act) (get_budgets b))).
  rewrite del_set_absent; [reflexivity |].
  unfold mem in Hm. destruct (lookup category (get_budgets b)); [discriminate | reflexivity].
Qed.

(** X14: a budget of amount 0 reports percentage 0 and status "ok"
    whatever has been spent (for positive thresholds, such as the
    defaults 80 and 100); the remaining amount is minus the spending. *)
Theorem zero_budget_never_warns (budgets : dict BudgetDef) (s : BudgetSettings)
    (category : string) (spent_amount : Q) (bd : BudgetDef) :
  lookup category budgets = Some bd -> amount bd == 0 ->
  0 < warning_threshold s -> 0 < alert_threshold s ->
  has_budget (calculate_budget_status budgets s category spent_amount) = true /\
  percentage (calculate_budget_status budgets s category spent_amount) = 0 /\
  remaining (calculate_budget_status budgets s category spent_amount) == - spent_amount /\
  status (calculate_budget_status budgets s category spent_amount) = ok.
Proof.
  intros Hl H0 Hw Ha. unfold calculate_budget_status. rewrite Hl.
  assert (E : Qeq_bool (amount bd) 0 = true) by (apply Qeq_bool_iff; exact H0).
  rewrite E. cbn [has_budget percentage remaining status].
  split; [reflexivity | split; [reflexivity | split]].
  - rewrite H0. lra.
  - unfold threshold_label.
    destruct (Qle_bool (alert_threshold s) 0) eqn:E1;
      [apply Qle_bool_iff in E1; lra |].
    destruct (Qle_bool (warning_threshold s) 0) eqn:E2;
      [apply Qle_bool_iff in E2; lra | reflexivity].
Qed.

(** X15: for a positive budget, spending more never lowers the status:
    "alert" stays "alert", and "warning" becomes "warning" or "alert". *)
Theorem status_monotone_in_spent (budgets : dict BudgetDef) (s : BudgetSettings)
    (category : string) (bd : BudgetDef) (x y : Q) :
  lookup category budgets = Some bd -> 0 < amount bd -> x <= y ->
  (status (calculate_budget_status budgets s category x) = alert ->
   status (calculate_budget_status budgets s category y) = alert) /\
  (status (calculate_budget_status budgets s category x) = warning ->
   status (calculate_budget_status budgets s category y) = warning \/
   status (calculate_budget_status budgets s category y) = alert).
Proof.
  intros Hl Ha Hxy. unfold calculate_budget_status. rewrite Hl.
  assert (E : Qeq_bool (amount bd) 0 = false).
  { destruct (Qeq_bool (amount bd) 0) eqn:E; [| reflexivity].
    apply Qeq_bool_iff in E. lra. }
  rewrite E. cbn [status].
  assert (Hp : x / amount bd * 100 <= y / amount bd * 100).
  { unfold Qdiv. apply Qmult_le_compat_r; [| lra].
    apply Qmult_le_compat_r; [exact Hxy |].
    apply Qlt_le_weak, Qinv_lt_0_compat, Ha. }
  revert Hp. generalize (x / amount bd * 100) (y / amount bd * 100). intros px py Hp.
  assert (M : forall t, Qle_bool t px = true -> Qle_bool t py = true)
    by (intros t Ht; apply Qle_bool_iff in Ht; apply Qle_bool_iff; lra).
  unfold threshold_label.
  destruct (Qle_bool (alert_threshold s) px) eqn:E1.
  - rewrite (M _ E1). split; intros _; [reflexivity | right; reflexivity].
  - destruct (Qle_bool (warning_threshold s) px) eqn:E3.
    + rewrite (M _ E3). split; [discriminate | intros _].
      destruct (Qle_bool (alert_threshold s) py); [right | left]; reflexivity.
    + split; discriminate.
Qed.

Lemma budget_set_delete_roundtrip_witness :
  fst (set_budget (Some example_budgets) "Fun" 50 "monthly" "" true) = true /\
  delete_budget (snd (set_budget (Some example_budgets) "Fun" 50 "monthly" "" true)) "Fun" =
  (true, Some example_budgets).
Proof.
  exact (budget_set_delete_roundtrip (Some example_budgets) "Fun" 50 "monthly" "" true
           eq_refl).
Defined.

Lemma zero_budget_never_warns_witness :
  status (calculate_budget_status [("Gifts"%string, mkBudget 0 "monthly" "" true)]
                                  example_settings "Gifts" 25) = ok /\
  remaining (calculate_budget_status [("Gifts"%string, mkBudget 0 "monthly" "" true)]
                                     example_settings "Gifts" 25) == - 25.
Proof.
  destruct (zero_budget_never_warns [("Gifts"%string, mkBudget 0 "monthly" "" true)]
              example_settings "Gifts" 25 (mkBudget 0 "monthly" "" true))
    as (_ & _ & Hr & Hs); [reflexivity | reflexivity | reflexivity | reflexivity |].
  split; assumption.
Defined.

Lemma status_monotone_in_spent_witness :
  (status (calculate_budget_status example_budgets example_settings "Food" 170) = alert ->
   status (calculate_budget_status example_budgets example_settings "Food" 210) = alert) /\
  (status (calculate_budget_status example_budgets example_settings "Food" 170) = warning ->
   status (calculate_budget_status example_budgets example_settings "Food" 210) = warning \/
   status (calculate_budget_status example_budgets example_settings "Food" 210) = alert).
Proof.
  apply (status_monotone_in_spent example_budgets example_settings "Food"
           (mkBudget 200 "monthly" "" true) 170 210); [reflexivity | reflexivity | lra].
Defined.

End BudgetExtraFacts.

(* ------------------------------------------------------------------ *)
(** ** Spending rate analysis and recurring due dates *)

Module ScheduleFacts.
Import Period PeriodFacts Schedule Pace.

Lemma div_US (a q r : Z) :
  a = q * US_PER_DAY + r -> 0 <= r < US_PER_DAY -> a / US_PER_DAY = q.
Proof.
  intros Ha Hr. symmetry. apply (Z.div_unique_pos a US_PER_DAY q r Hr). lia.
Qed.

Lemma time_us_range (d : datetime) :
  valid_datetime d = true -> 0 <= time_us d < US_PER_DAY.
Proof.
  intro Hv. apply valid_datetime_iff in Hv. unfold time_us, US_PER_DAY. lia.
Qed.

Lemma time_parts (d : datetime) :
  valid_datetime d = true ->
  (time_us d / 1000000) / 3600 = hour d /\
  ((time_us d / 1000000) mod 3600) / 60 = minute d /\
  (time_us d / 1000000) mod 60 = second d /\
  time_us d mod 1000000 = microsecond d.
Proof.
  intro Hv. apply valid_datetime_iff in Hv.
  destruct Hv as (_ & _ & _ & Hh & Hmi & Hs & Hus).
  assert (Hsec : time_us d / 1000000 = (hour d * 60 + minute d) * 60 + second d).
  { symmetry. apply (Z.div_unique_pos _ _ _ (microsecond d)); [lia | unfold time_us; lia]. }
  rewrite Hsec. split; [| split; [| split]].
  - symmetry. apply (Z.div_unique_pos _ _ _ (minute d * 60 + second d)); lia.
  - rewrite <- (Z.mod_unique_pos _ 3600 (hour d) (minute d * 60 + second d)) by lia.
    symmetry. apply (Z.div_unique_pos _ _ _ (second d)); lia.
  - symmetry. apply (Z.mod_unique_pos _ _ (hour d * 60 + minute d)); lia.
  - symmetry. apply (Z.mod_unique_pos _ _ ((hour d * 60 + minute d) * 60 + second d));
      [lia | unfold time_us; lia].
Qed.

Lemma dt_add_whole_days (d d' : datetime) (k : Z) :
  valid_datetime d = true -> add_days k d = Some d' ->
  dt_add d (td_of_days k) =
  Some (mkDT (year d') (month d') (day d') (hour d) (minute d) (second d) (microsecond d)).
Proof.
  intros Hv Ha. pose proof (time_us_range d Hv) as Hr.
  destruct (time_parts d Hv) as (H1 & H2 & H3 & H4).
  unfold dt_add, td_of_days. cbn [td_days td_seconds td_microseconds].
  rewrite Z.mul_0_l, !Z.add_0_r.
  rewrite (Z.div_small _ _ Hr), (Z.mod_small _ _ Hr), Z.add_0_r, Ha.
  rewrite H1, H2, H3, H4. reflexivity.
Qed.

Lemma frequency_days_pos (frequency : string) : 1 <= frequency_days frequency.
Proof.
  unfold frequency_days.
  repeat match goal with |- context [if ?b then _ else _] => destruct b end; lia.
Qed.

(** X16: [calculate_next_due_date] moves the date forward by the
    frequency's day count (1, 7, 14, 30, 90 or 365; 30 for any other
    frequency) and keeps the time of day, for every date whose result
    stays within year 9999. *)
Theorem next_due_date_shift (last_paid : datetime) (frequency : string) :
  valid_datetime last_paid = true ->
  toordinal last_paid + frequency_days frequency <= MAXORDINAL ->
  exists nd, calculate_next_due_date last_paid frequency = Some nd /\
    valid_datetime nd = true /\
    toordinal nd = toordinal last_paid + frequency_days frequency /\
    hour nd = hour last_paid /\ minute nd = minute last_paid /\
    second nd = second last_paid /\ microsecond nd = microsecond last_paid.
Proof.
  intros Hv Hb. pose proof (frequency_days_pos frequency) as Hp.
  destruct (add_days_forward (frequency_days frequency) last_paid Hv ltac:(lia) Hb)
    as [d' (Ha & Hv' & Ho)].
  exists (mkDT (year d') (month d') (day d') (hour last_paid) (minute last_paid)
               (second last_paid) (microsecond last_paid)).
  split; [apply dt_add_whole_days; assumption |].
  split; [| split; [exact Ho | repeat split]].
  apply valid_datetime_iff. apply valid_datetime_iff in Hv, Hv'. cbn. tauto.
Qed.

(** X17: an item due at midnight is "(next_due - now).days" = one less
    than the difference of the calendar days as soon as [now] is past
    midnight; in particular an item due today is "Overdue". *)
Theorem due_at_midnight (nd now : datetime) :
  valid_datetime now = true ->
  hour nd = 0 -> minute nd = 0 -> second nd = 0 -> microsecond nd = 0 ->
  0 < time_us now ->
  snd (due_status (Some nd) now) = toordinal nd - toordinal now - 1 /\
  (toordinal nd = toordinal now -> fst (due_status (Some nd) now) = overdue).
Proof.
  intros Hv H1 H2 H3 H4 Ht. pose proof (time_us_range now Hv) as Hr.
  assert (Hd : dt_diff_days nd now = toordinal nd - toordinal now - 1).
  { unfold dt_diff_days. apply (div_US _ _ (US_PER_DAY - time_us now)).
    - unfold time_us at 1. rewrite H1, H2, H3, H4. lia.
    - lia. }
  unfold due_status. rewrite Hd. split.
  - destruct (toordinal nd - toordinal now - 1 <? 0); [reflexivity |].
    destruct (toordinal nd - toordinal now - 1 <=? 3); reflexivity.
  - intro He. rewrite He, Z.sub_diag. reflexivity.
Qed.

(** X18: when the two clock readings of the overview (the page's [now]
    and the one inside [get_current_period_dates]) fall in the same month,
    [days_in_period] is the number of days of that month and
    [days_elapsed] is [now]'s day of the month, so [days_elapsed] is
    between 1 and [days_in_period]. *)
Theorem period_days_month (now now' : datetime) :
  valid_datetime now = true -> valid_datetime now' = true ->
  year now' = year now -> month now' = month now ->
  period_days now now' = Some (days_in_month (year now) (month now), day now).
Proof.
  intros Hv Hv2 Ey Em. pose proof (time_us_range now Hv) as Hr.
  pose proof Hv as Hv'. apply valid_datetime_iff in Hv'.
  destruct Hv' as (Hy & Hm & Hd & _).
  pose proof (days_in_month_range (year now) (month now) Hm) as Hdim.
  unfold period_days, get_current_period_dates.
  destruct (String.eqb "monthly" "weekly") eqn:E; [vm_compute in E; discriminate E |].
  unfold get_monthly_period, dt_replace. rewrite Ey, Em.
  assert (V1 : valid_datetime (mkDT (year now) (month now) 1 0 0 0 0) = true)
    by (apply valid_datetime_iff; cbn; lia).
  assert (V2 : valid_datetime (mkDT (year now) (month now)
                 (days_in_month (year now) (month now)) 23 59 59 999999) = true)
    by (apply valid_datetime_iff; cbn; lia).
  rewrite V1, V2. f_equal. f_equal.
  - unfold dt_diff_days, toordinal, time_us. cbn [year month day hour minute second microsecond].
    rewrite (div_US _ (days_in_month (year now) (month now) - 1) (US_PER_DAY - 1));
      [lia | unfold US_PER_DAY; lia | unfold US_PER_DAY; lia].
  - unfold dt_diff_days, toordinal. cbn [year month day].
    change (time_us (mkDT (year now) (month now) 1 0 0 0 0)) with 0.
    rewrite (div_US _ (day now - 1) (time_us now)); [lia | lia | exact Hr].
Qed.

Lemma next_due_date_shift_witness :
  exists nd, calculate_next_due_date (mkDT 2024 1 31 10 30 0 0) "Monthly" = Some nd /\
    valid_datetime nd = true /\
    toordinal nd = toordinal (mkDT 2024 1 31 10 30 0 0) + frequency_days "Monthly" /\
    hour nd = 10 /\ minute nd = 30 /\ second nd = 0 /\ microsecond nd = 0.
Proof.
  apply (next_due_date_shift (mkDT 2024 1 31 10 30 0 0) "Monthly");
    [reflexivity | apply Z.leb_le; reflexivity].
Defined.

Lemma due_at_midnight_witness :
  snd (due_status (Some (mkDT 2024 3 10 0 0 0 0)) (mkDT 2024 3 10 9 15 0 0)) =
    toordinal (mkDT 2024 3 10 0 0 0 0) - toordinal (mkDT 2024 3 10 9 15 0 0) - 1 /\
  (toordinal (mkDT 2024 3 10 0 0 0 0) = toordinal (mkDT 2024 3 10 9 15 0 0) ->
   fst (due_status (Some (mkDT 2024 3 10 0 0 0 0)) (mkDT 2024 3 10 9 15 0 0)) = overdue).
Proof.
  apply (due_at_midnight (mkDT 2024 3 10 0 0 0 0) (mkDT 2024 3 10 9 15 0 0));
    reflexivity.
Defined.

Lemma period_days_month_witness :
  period_days (mkDT 2024 2 15 12 0 0 0) (mkDT 2024 2 15 12 0 0 1) =
  Some (days_in_month 2024 2, 15).
Proof.
  exact (period_days_month (mkDT 2024 2 15 12 0 0 0) (mkDT 2024 2 15 12 0 0 1)
           eq_refl eq_refl eq_refl eq_refl).
Defined.

End ScheduleFacts.

(* ------------------------------------------------------------------ *)
(** ** Account balance, trend arrows and worksheet resolution *)

Module BalanceFacts.
Import Balance.

(** X20: [set_initial_balance] returns [True], and reading the settings
    back gives the amount, date and notes just set with the currency read
    before ("EUR" when none was set). *)
Theorem initial_balance_roundtrip (a : option AccountSettings) (amt : Q)
    (date notes : string) :
  fst (set_initial_balance a amt date notes) = true /\
  get_initial_balance (snd (set_initial_balance a amt date notes)) =
    (amt, date, notes, snd (get_initial_balance a)).
Proof.
  split; [reflexivity |].
  destruct a as [[ib d n cur] |]; [destruct cur |]; reflexivity.
Qed.

End BalanceFacts.

Module DashboardFacts.
Import Dashboard.

Local Open Scope Q_scope.

(** X21: [get_trend_indicator] gives the neutral arrow exactly when the
    previous value is 0; otherwise an up arrow means the current value is
    larger and a down arrow that it is smaller, also for a negative
    previous value. *)
Theorem trend_direction (current previous pct : Q) :
  (get_trend_indicator current previous = flat_no_previous <-> previous == 0) /\
  (get_trend_indicator current previous = trend_up pct -> previous < current) /\
  (get_trend_indicator current previous = trend_down pct -> current < previous).
Proof.
  unfold get_trend_indicator.
  destruct (Qeq_bool previous 0) eqn:E0.
  - apply Qeq_bool_iff in E0. split; [split; intros _; [exact E0 | reflexivity] |].
    split; discriminate.
  - assert (Hne : ~ previous == 0) by (intro H; apply Qeq_bool_iff in H; congruence).
    assert (Hq : 0 < Qabs previous).
    { destruct (Qlt_le_dec 0 previous) as [Hp | Hp].
      - rewrite Qabs_pos by lra. exact Hp.
      - rewrite Qabs_neg by exact Hp. apply Qle_lteq in Hp.
        destruct Hp as [Hp | Hp]; [lra | contradiction]. }
    set (q := Qabs previous) in *. set (a := current - previous).
    assert (Hk : a / q * 100 == a * (100 / q)).
    { field. intro H. rewrite H in Hq. discriminate. }
    assert (HK : 0 < 100 / q) by (apply Qmult_lt_0_compat; [reflexivity | apply Qinv_lt_0_compat, Hq]).
    set (K := 100 / q) in *. set (c := a / q * 100) in *. cbv zeta.
    pose proof (Qmult_lt_r a 0 K HK) as Hneg. pose proof (Qmult_lt_r 0 a K HK) as Hpos.
    assert (H0K : 0 * K == 0) by ring.
    set (aK := a * K) in *. set (zK := 0 * K) in *.
    destruct (negb (Qle_bool 3 (Qabs c))) eqn:E3;
      [split; [split; [discriminate | intro H; contradiction] | split; discriminate] |].
    assert (H3 : 3 <= Qabs c)
      by (destruct (Qle_bool 3 (Qabs c)) eqn:E; [apply Qle_bool_iff, E | discriminate]).
    destruct (negb (Qle_bool c 0)) eqn:Ec;
      (split; [split; [discriminate | intro H; contradiction] |]).
    + assert (Hc : 0 < c).
      { apply Qnot_le_lt. intro Hle. apply Qle_bool_iff in Hle. rewrite Hle in Ec. discriminate. }
      split; [intros _ | discriminate].
      assert (Ha : 0 < a) by (apply Hpos; lra). unfold a in Ha. lra.
    + assert (Hc : c <= 0).
      { destruct (Qle_bool c 0) eqn:E; [apply Qle_bool_iff, E | discriminate]. }
      rewrite Qabs_neg in H3 by exact Hc.
      split; [discriminate | intros _].
      assert (Ha : a < 0) by (apply Hneg; lra). unfold a in Ha. lra.
Qed.

End DashboardFacts.

Module LedgerExtraFacts.
Import PyDict Ledger.

Local Open Scope string_scope.

(** X22: a user id other than "user1" and "shared" with no worksheet
    entry of its own (or no worksheet secrets at all) is given the
    fallback sheets of "user2", the "dana" ones. *)
Theorem unknown_user_uses_user2_sheets (secrets : option (dict string)) (user_id : string) :
  user_id <> "user1" -> user_id <> "shared" ->
  match secrets with Some ws => lookup ("expenses_" ++ user_id) ws = None | None => True end ->
  get_worksheet_names secrets user_id = get_worksheet_names None "user2".
Proof.
  intros H1 H2 Hs.
  assert (Hf : fallback_worksheet_names user_id = fallback_worksheet_names "user2").
  { unfold fallback_worksheet_names.
    apply String.eqb_neq in H1, H2. rewrite H1, H2. reflexivity. }
  unfold get_worksheet_names at 1.
  destruct secrets as [ws |]; [rewrite Hs |]; exact Hf.
Qed.

(** X23: for the user id "shared" the merge reads the shared sheet
    twice, so every shared row comes back twice: once tagged "personal"
    and once tagged "shared". *)
Theorem shared_user_reads_shared_twice (secrets : option (dict string))
    (read : string -> option DataFrame) (data_type ws : string) (df : DataFrame) :
  lookup data_type (get_worksheet_names secrets "shared") = Some ws ->
  read ws = Some df -> df <> [] ->
  get_user_and_shared_data secrets read "shared" data_type =
  (map (stamp "personal") df ++ map (stamp "shared") df)%list.
Proof.
  intros Hl Hr Hne. unfold get_user_and_shared_data, load_partition.
  rewrite Hl, Hr. destruct df as [| r df]; [contradiction |].
  cbn [opt_list app List.concat]. rewrite app_nil_r. reflexivity.
Qed.

Lemma unknown_user_uses_user2_sheets_witness :
  get_worksheet_names None "user3" = get_worksheet_names None "user2".
Proof. apply unknown_user_uses_user2_sheets; [discriminate | discriminate | exact I]. Defined.

Lemma shared_user_reads_shared_twice_witness :
  get_user_and_shared_data None read_shared_only "shared" "expenses" =
  (map (stamp "personal") shared_rows ++ map (stamp "shared") shared_rows)%list.
Proof.
  apply (shared_user_reads_shared_twice None read_shared_only "expenses" "expenses_shared");
    [reflexivity | reflexivity | discriminate].
Defined.

End LedgerExtraFacts.
